(** * Blog-generation pipeline: shared context, four stages, orchestrator

    A shallow embedding of the Python sources

      base_agent.py                 AgentContext, BaseAgent.update_context,
                                    BaseAgent.get_context_value
      research_agent.py             ResearchAgent
      content_planning_agent.py     BlogOutline, ContentPlanningAgent
      content_generation_agent.py   BlogPost, ContentGenerationAgent
      seo_optimization_agent.py     SEOOptimizedPost, SEOOptimizationAgent
      orchestrator.py               BlogGenerationResult,
                                    BlogGenerationOrchestrator

    Modelling decisions.

    - Python [int] is [Z].  Python [float] is [Q]: every finite double is a
      rational and the comparison of two finite doubles is the comparison of
      their values; NaN and the infinities are outside the model.
    - A Python [str] is a [string] whose characters are read as the code
      points 0..255; [isspace] and [lower] below are Python's on that range.
    - The context is one mutable object shared by the orchestrator and the
      four agents (each agent is built with [context=self.context], and
      [context or AgentContext(...)] keeps it, a dataclass instance being
      truthy).  It is the [context] component of the [World] that every
      method threads.  Its attributes are dynamically typed, so each holds a
      [Value].
    - Exceptions are the [Raised] outcome; what was written to the world
      before the raise stays written.
    - [datetime.now()] reads the next value of the world's clock.
    - [BaseAgent.log] reads the clock for its time stamp and prints one line;
      standard output is not part of the [World], so of a call to [log] the
      clock reading is what the world keeps.  [headers] in
      [_gather_information] is a dead local and is not modelled.
    - The two placeholder bodies of the research agent that stand for web
      scraping (the candidate list of [_find_trending_topics] and the
      dictionary of [_gather_information]) are the fields of a [Provider];
      [ResearchAgent.placeholder] is the one written in the source. *)

From Stdlib Require Import ZArith QArith List Ascii String Lia.
From stdpp Require Import base option list strings gmap fin_maps.

Local Open Scope Z_scope.

(** ** Python built-ins used by the sources *)

Module Py.

(** [str.isspace] on one character. *)
Definition isspace (c : ascii) : bool :=
  let n := nat_of_ascii c in
  ((9 <=? n)%nat && (n <=? 13)%nat)
  || ((28 <=? n)%nat && (n <=? 32)%nat)
  || (n =? 133)%nat || (n =? 160)%nat.

(** [str.lower] on one character. *)
Definition lower_char (c : ascii) : ascii :=
  let n := nat_of_ascii c in
  if ((65 <=? n)%nat && (n <=? 90)%nat)
     || ((192 <=? n)%nat && (n <=? 222)%nat && negb (n =? 215)%nat)
  then ascii_of_nat (n + 32) else c.

Fixpoint lower (s : string) : string :=
  match s with
  | EmptyString => EmptyString
  | String c s' => String (lower_char c) (lower s')
  end.

(** [sep.join(parts)]. *)
Fixpoint join (sep : string) (parts : list string) : string :=
  match parts with
  | [] => ""
  | [p] => p
  | p :: rest => p +:+ sep +:+ join sep rest
  end.

(** [s.split()] with no argument: the scan of CPython's
    [split_whitespace].  [tok] is the token being read, if any. *)
Fixpoint split_from (tok : option string) (s : string) : list string :=
  match s with
  | EmptyString => match tok with Some t => [t] | None => [] end
  | String c s' =>
      if isspace c then
        match tok with
        | Some t => t :: split_from None s'
        | None => split_from None s'
        end
      else
        split_from (Some (default "" tok +:+ String c "")) s'
  end.

Definition split (s : string) : list string := split_from None s.

(** [a > b] on floats. *)
Definition float_gt (a b : Q) : bool := negb (Qle_bool a b).

(** [max(items, key=key)]: the first item is the running maximum and a
    later item replaces it only when its key is strictly greater.  [None]
    stands for the [ValueError] raised on an empty sequence. *)
Definition max_by {A : Type} (key : A → Q) (items : list A) : option A :=
  match items with
  | [] => None
  | x :: rest =>
      Some (fold_left (λ best y, if float_gt (key y) (key best) then y else best)
                      rest x)
  end.

(** Truth value of an optional string: [None] and [""] are falsy. *)
Definition truthy (o : option string) : bool :=
  match o with
  | None => false
  | Some EmptyString => false
  | Some _ => true
  end.

(** [enumerate(items, start)]. *)
Fixpoint enumerate {A : Type} (items : list A) (start : Z) : list (Z * A) :=
  match items with
  | [] => []
  | x :: rest => (start, x) :: enumerate rest (start + 1)
  end.

(** The escape [\n]. *)
Definition nl : string := String (ascii_of_nat 10) "".

(** Truth value of [d.get(key)] for a list-valued key. *)
Definition truthy_list {A : Type} (o : option (list A)) : bool :=
  match o with
  | None | Some [] => false
  | Some _ => true
  end.

End Py.

(** ** Data carried between the stages *)

(** A section of the outline is a Python dict; the keys that the code reads
    with [.get] are optional. *)
Module Subsection.
Record t := mk {
  title : string;
  type : string;
  target_word_count : option Z
}.
End Subsection.

Module Section_.
Record t := mk {
  title : string;
  type : string;
  target_word_count : option Z;
  key_points : option (list string);
  subsections : option (list Subsection.t)
}.
End Section_.

Module TrendingTopic.
Record t := mk { title : string; relevance_score : Q }.
End TrendingTopic.

(** The dictionary returned by [_gather_information]. *)
Module Gathered.
Record t := mk {
  related_topics : list string;
  key_points : list string;
  sources : list string;
  keywords : list string
}.
End Gathered.

(** The dictionary returned by [ResearchAgent.execute]. *)
Module ResearchResult.
Record t := mk {
  trending_topics : list string;
  selected_topic : string;
  key_findings : list string;
  sources : list string;
  keywords : list string
}.
End ResearchResult.

Module BlogOutline.
Record t := mk {
  title : string;
  meta_description : string;
  sections : list Section_.t;
  target_keywords : list string;
  estimated_word_count : Z
}.
End BlogOutline.

Module BlogPost.
Record t := mk {
  title : string;
  meta_description : string;
  content : string;
  word_count : Z;
  keywords : list string;
  sources : list string
}.
End BlogPost.

Module SEOOptimizedPost.
Record t := mk {
  title : string;
  meta_description : string;
  content : string;
  word_count : Z;
  keywords : list string;
  sources : list string;
  keyword_density : gmap string Q;
  readability_score : Q
}.
End SEOOptimizedPost.

Module BlogGenerationResult.
Record t := mk {
  title : string;
  meta_description : string;
  content : string;
  word_count : Z;
  keywords : list string;
  sources : list string;
  keyword_density : gmap string Q;
  readability_score : Q;
  generation_time : Q
}.
End BlogGenerationResult.

(** ** Dynamically typed values held by the context *)

#[warnings="-register-all"]
Inductive Value : Type :=
  | VNone
  | VStr (s : string)
  | VInt (n : Z)
  | VFloat (q : Q)
  | VDatetime (microseconds : Z)
  | VList (items : list Value)
  | VDict (entries : gmap string Value)
  | VOutline (o : BlogOutline.t)
  | VBlogPost (p : BlogPost.t)
  | VSEOPost (p : SEOOptimizedPost.t).

Definition VStrs (l : list string) : Value := VList (VStr <$> l).

(** ** base_agent.py *)

Record AgentContext := mkContext {
  topic : Value;
  keywords : Value;
  target_word_count : Value;
  timestamp : Value;
  metadata : Value
}.

(** The state every method runs in: the shared context and the wall clock
    ([wall_clock w 0] is the next reading of [datetime.now()]). *)
Record World := mkWorld {
  context : AgentContext;
  wall_clock : nat → Z
}.

Inductive Exn := ValueError | TypeError | AttributeError.

Inductive Outcome (A : Type) :=
  | Returned (a : A)
  | Raised (e : Exn).
Arguments Returned {A} a.
Arguments Raised {A} e.

Definition PyM (A : Type) : Type := World → Outcome A * World.

Definition ret {A} (a : A) : PyM A := λ w, (Returned a, w).

Definition bind {A B} (m : PyM A) (k : A → PyM B) : PyM B :=
  λ w, match m w with
       | (Returned a, w') => k a w'
       | (Raised e, w') => (Raised e, w')
       end.

Definition raise {A} (e : Exn) : PyM A := λ w, (Raised e, w).

Definition get_context : PyM AgentContext := λ w, (Returned (context w), w).

Definition put_context (c : AgentContext) : PyM unit :=
  λ w, (Returned tt, mkWorld c (wall_clock w)).

(** [datetime.now()], in microseconds. *)
Definition now : PyM Z :=
  λ w, (Returned (wall_clock w 0%nat),
        mkWorld (context w) (λ n, wall_clock w (S n))).

Declare Scope py_scope.
Delimit Scope py_scope with py.
Notation "'let!' x ':=' m 'in' k" := (bind m (λ x, k))
  (at level 10, x name, m at level 100, k at level 200) : py_scope.
Notation "m ;;; k" := (bind m (λ _, k))
  (at level 100, right associativity) : py_scope.
Local Open Scope py_scope.

Definition outcome_map {A B} (f : A → B) (o : Outcome A) : Outcome B :=
  match o with
  | Returned a => Returned (f a)
  | Raised e => Raised e
  end.

(** The pieces of an f-string: literal text and formatted values. *)
Inductive Fragment :=
  | Text (s : string)
  | Int (n : Z)
  | Float (q : Q).

Module BaseAgent.

(** [log(message, level)] of the agent called [name]: the time stamp is a
    reading of the clock; the line built from it goes to standard output. *)
Definition log (name : string) (message : list Fragment) (level : string)
  : PyM unit :=
  let! timestamp := now in
  ret tt.

(** [AgentContext(topic="", keywords=[], target_word_count=n)]; the
    default of [timestamp] was evaluated once, when the class was
    defined. *)
Definition new_context (class_timestamp : Z) (n : Z) : AgentContext :=
  mkContext (VStr "") (VList []) (VInt n) (VDatetime class_timestamp) VNone.

(** [hasattr(self.context, key)] on the keys of the model: the five fields
    the dataclass declares.  A Python object also has the attributes whose
    names start with two underscores ([__doc__], [__class__], [__dict__],
    ...); on those names the code takes its [setattr]/[getattr] branch,
    with effects the [AgentContext] record cannot hold.  They are not keys
    of the model: a statement about a key that is not a field assumes
    [Shape.plain_key] of it. *)
Definition hasattr (key : string) : bool :=
  bool_decide (key ∈ ["topic"; "keywords"; "target_word_count";
                      "timestamp"; "metadata"]).

Definition setattr (c : AgentContext) (key : string) (v : Value) : AgentContext :=
  if String.eqb key "topic" then
    mkContext v (keywords c) (target_word_count c) (timestamp c) (metadata c)
  else if String.eqb key "keywords" then
    mkContext (topic c) v (target_word_count c) (timestamp c) (metadata c)
  else if String.eqb key "target_word_count" then
    mkContext (topic c) (keywords c) v (timestamp c) (metadata c)
  else if String.eqb key "timestamp" then
    mkContext (topic c) (keywords c) (target_word_count c) v (metadata c)
  else if String.eqb key "metadata" then
    mkContext (topic c) (keywords c) (target_word_count c) (timestamp c) v
  else c.

Definition getattr (c : AgentContext) (key : string) : Value :=
  if String.eqb key "topic" then topic c
  else if String.eqb key "keywords" then keywords c
  else if String.eqb key "target_word_count" then target_word_count c
  else if String.eqb key "timestamp" then timestamp c
  else metadata c.

(** One iteration of the loop of [update_context]. *)
Definition update_one (key : string) (value : Value) : PyM unit :=
  let! c := get_context in
  if hasattr key then
    put_context (setattr c key value)
  else
    match metadata c with
    | VNone => put_context (setattr c "metadata" (VDict {[ key := value ]}))
    | VDict d => put_context (setattr c "metadata" (VDict (<[ key := value ]> d)))
    | _ => raise TypeError
    end.

(** [update_context]; [kwargs] are the keyword arguments in call order. *)
Fixpoint update_context (kwargs : list (string * Value)) : PyM unit :=
  match kwargs with
  | [] => ret tt
  | (key, value) :: rest => update_one key value ;;; update_context rest
  end.

(** Truth value of a Python object. *)
Definition is_truthy (v : Value) : bool :=
  match v with
  | VNone | VStr EmptyString | VInt 0 | VList [] => false
  | VFloat q => negb (Qeq_bool q 0)
  | VDict d => negb (bool_decide (d = ∅))
  | _ => true
  end.

(** [get_context_value(key)]. *)
Definition get_context_value (key : string) : PyM Value :=
  let! c := get_context in
  if hasattr key then ret (getattr c key)
  else if is_truthy (metadata c) then
    match metadata c with
    | VDict d => ret (default VNone (d !! key))
    | _ => raise AttributeError
    end
  else ret VNone.

End BaseAgent.

(** ** research_agent.py *)

Module ResearchAgent.

(** What the scraping behind the two placeholder bodies would deliver. *)
Record Provider := mkProvider {
  candidates : list TrendingTopic.t;
  gather : string → Gathered.t
}.


(** The literals of the source. *)
Definition placeholder : Provider :=
  mkProvider
    [ TrendingTopic.mk "Remote Work Best Practices 2024" (95 # 100);
      TrendingTopic.mk "AI in HR: Transforming Recruitment" (92 # 100);
      TrendingTopic.mk "Employee Well-being Strategies" (88 # 100) ]
    (λ _, Gathered.mk
       [ "Future of Remote Work"; "Remote Team Management";
         "Virtual Collaboration Tools" ]
       [ "Increased productivity in remote settings";
         "Importance of work-life balance";
         "Technology requirements for remote work";
         "Communication challenges and solutions";
         "Best practices for virtual team building" ]
       [ "Harvard Business Review";
         "Society for Human Resource Management";
         "LinkedIn Workplace Research" ]
       [ "remote work"; "virtual teams"; "work from home";
         "remote collaboration"; "digital workplace" ]).

Definition _find_trending_topics (P : Provider) : PyM TrendingTopic.t :=
  let trending_topics := candidates P in
  match Py.max_by TrendingTopic.relevance_score trending_topics with
  | Some top_topic => ret top_topic
  | None => raise ValueError
  end.

Definition _gather_information (P : Provider) (topic : string) : PyM Gathered.t :=
  ret (gather P topic).

Definition execute (P : Provider) (query : option string) : PyM ResearchResult.t :=
  BaseAgent.log "ResearchAgent" [Text "Starting research process"] "info" ;;;
  let! query :=
    (if negb (Py.truthy query) then
       let! trending_topic := _find_trending_topics P in
       BaseAgent.update_context
         [("topic", VStr (TrendingTopic.title trending_topic))] ;;;
       ret (TrendingTopic.title trending_topic)
     else ret (default "" query)) in
  let! research_data := _gather_information P query in
  let result :=
    ResearchResult.mk
      (Gathered.related_topics research_data)
      query
      (Gathered.key_points research_data)
      (Gathered.sources research_data)
      (Gathered.keywords research_data) in
  BaseAgent.update_context
    [ ("keywords", VStrs (ResearchResult.keywords result));
      ("metadata",
       VDict {[ "sources" := VStrs (ResearchResult.sources result);
                "key_findings" := VStrs (ResearchResult.key_findings result) ]}) ] ;;;
  BaseAgent.log "ResearchAgent" [Text "Research completed for topic: "; Text query] "success" ;;;
  ret result.

End ResearchAgent.

(** ** content_planning_agent.py *)

Module ContentPlanningAgent.


Definition _generate_title (topic : string) : string :=
  "The Complete Guide to " +:+ topic +:+ ": Strategies for 2024".

Definition _generate_meta_description (topic : string) (key_points : list string)
  : string :=
  "Discover the latest insights and best practices for " +:+ topic
  +:+ ". Learn expert strategies for "
  +:+ Py.lower (Py.join ", " (take 2 key_points))
  +:+ " and more in this comprehensive guide.".

Definition _create_sections (topic : string) (key_points : list string)
  : list Section_.t :=
  let sections :=
    [ Section_.mk "Introduction" "section" (Some 200)
        (Some ["Context setting"; "Problem statement"; "Article overview"])
        None ] in
  let sections :=
    fold_left
      (λ sections '(i, point),
         let section :=
           Section_.mk point "section" (Some 300) None
             (Some [ Subsection.mk "Current Trends" "subsection" (Some 150);
                     Subsection.mk "Best Practices" "subsection" (Some 150) ]) in
         sections ++ [section])
      (Py.enumerate key_points 1) sections in
  sections ++
    [ Section_.mk "Conclusion" "section" (Some 200)
        (Some ["Summary of key points"; "Future implications"; "Call to action"])
        None ].

Definition _calculate_word_count (sections : list Section_.t) : Z :=
  fold_left
    (λ total_words section,
       let total_words :=
         total_words + default 0 (Section_.target_word_count section) in
       fold_left
         (λ total_words subsection,
            total_words + default 0 (Subsection.target_word_count subsection))
         (default [] (Section_.subsections section))
         total_words)
    sections 0.

Definition execute (research_data : ResearchResult.t) : PyM BlogOutline.t :=
  BaseAgent.log "ContentPlanningAgent" [Text "Starting content planning process"] "info" ;;;
  let topic := ResearchResult.selected_topic research_data in
  let key_points := ResearchResult.key_findings research_data in
  let keywords := ResearchResult.keywords research_data in
  let meta_description := _generate_meta_description topic key_points in
  let sections := _create_sections topic key_points in
  let estimated_word_count := _calculate_word_count sections in
  let outline :=
    BlogOutline.mk (_generate_title topic) meta_description sections
      keywords estimated_word_count in
  BaseAgent.update_context
    [ ("metadata",
       VDict {[ "outline" := VOutline outline;
                "meta_description" := VStr meta_description ]}) ] ;;;
  BaseAgent.log "ContentPlanningAgent" [Text "Content plan created for topic: "; Text topic] "success" ;;;
  ret outline.

End ContentPlanningAgent.

(** ** content_generation_agent.py *)

Module ContentGenerationAgent.


Definition _generate_section_content
    (section : Section_.t) (research_data : ResearchResult.t) : string :=
  let content_parts := ["# " +:+ Section_.title section +:+ Py.nl] in
  let content_parts :=
    if Py.truthy_list (Section_.key_points section) then
      fold_left
        (λ content_parts point,
           (content_parts ++ ["## " +:+ point +:+ Py.nl])
             ++ ["Content about " +:+ Py.lower point +:+ "..." +:+ Py.nl])
        (default [] (Section_.key_points section)) content_parts
    else content_parts in
  let content_parts :=
    if Py.truthy_list (Section_.subsections section) then
      fold_left
        (λ content_parts subsection,
           (content_parts ++ ["## " +:+ Subsection.title subsection +:+ Py.nl])
             ++ ["Content about " +:+ Py.lower (Subsection.title subsection)
                 +:+ "..." +:+ Py.nl])
        (default [] (Section_.subsections section)) content_parts
    else content_parts in
  Py.join Py.nl content_parts.

Definition _ensure_keyword_density (content : string) (keywords : list string)
  : string := content.

Definition execute (outline : BlogOutline.t) (research_data : ResearchResult.t)
  : PyM BlogPost.t :=
  BaseAgent.log "ContentGenerationAgent" [Text "Starting content generation process"] "info" ;;;
  let content_sections :=
    fold_left
      (λ content_sections section,
         let section_content := _generate_section_content section research_data in
         content_sections ++ [section_content])
      (BlogOutline.sections outline) [] in
  let full_content := Py.join (Py.nl +:+ Py.nl) content_sections in
  let word_count := Z.of_nat (length (Py.split full_content)) in
  let blog_post :=
    BlogPost.mk (BlogOutline.title outline) (BlogOutline.meta_description outline)
      full_content word_count (BlogOutline.target_keywords outline)
      (ResearchResult.sources research_data) in
  BaseAgent.update_context
    [ ("metadata",
       VDict {[ "blog_post" := VBlogPost blog_post;
                "actual_word_count" := VInt word_count ]}) ] ;;;
  BaseAgent.log "ContentGenerationAgent" [Text "Content generation completed with "; Int word_count; Text " words"]
    "success" ;;;
  ret blog_post.

End ContentGenerationAgent.

(** ** seo_optimization_agent.py *)

Module SEOOptimizationAgent.


Definition _optimize_title (title : string) : string := title.

Definition _optimize_meta_description (meta_description : string) : string :=
  meta_description.

Definition _optimize_content (content : string) (keywords : list string)
  : string := content.

(** The dict comprehension [{keyword: 0.02 for keyword in keywords}]. *)
Definition _calculate_keyword_density (content : string) (keywords : list string)
  : gmap string Q :=
  fold_left (λ d keyword, <[ keyword := (2 # 100)%Q ]> d) keywords ∅.

Definition _calculate_readability_score (content : string) : Q := 75%Q.

Definition execute (blog_post : BlogPost.t) : PyM SEOOptimizedPost.t :=
  BaseAgent.log "SEOOptimizationAgent" [Text "Starting SEO optimization process"] "info" ;;;
  let optimized_title := _optimize_title (BlogPost.title blog_post) in
  let optimized_meta :=
    _optimize_meta_description (BlogPost.meta_description blog_post) in
  let optimized_content :=
    _optimize_content (BlogPost.content blog_post) (BlogPost.keywords blog_post) in
  let keyword_density :=
    _calculate_keyword_density optimized_content (BlogPost.keywords blog_post) in
  let readability_score := _calculate_readability_score optimized_content in
  let optimized_post :=
    SEOOptimizedPost.mk optimized_title optimized_meta optimized_content
      (Z.of_nat (length (Py.split optimized_content)))
      (BlogPost.keywords blog_post) (BlogPost.sources blog_post)
      keyword_density readability_score in
  BaseAgent.update_context
    [ ("metadata",
       VDict {[ "optimized_post" := VSEOPost optimized_post;
                "keyword_density" := VDict (VFloat <$> keyword_density);
                "readability_score" := VFloat readability_score ]}) ] ;;;
  BaseAgent.log "SEOOptimizationAgent" [Text "SEO optimization completed with readability score: ";
       Float readability_score] "success" ;;;
  ret optimized_post.

End SEOOptimizationAgent.

(** ** orchestrator.py *)

Module BlogGenerationOrchestrator.

(** [__init__]: the context that the orchestrator and its four agents
    share. *)
Definition init (class_timestamp : Z) (target_word_count : Z) : AgentContext :=
  BaseAgent.new_context class_timestamp target_word_count.

(** [timedelta.total_seconds()] of the difference of two clock readings. *)
Definition total_seconds (start_time end_time : Z) : Q :=
  ((end_time - start_time) # 1000000)%Q.

Definition generate_blog_post (P : ResearchAgent.Provider) (topic : option string)
  : PyM BlogGenerationResult.t :=
  let! start_time := now in
  let! research_data := ResearchAgent.execute P topic in
  let! outline := ContentPlanningAgent.execute research_data in
  let! blog_post := ContentGenerationAgent.execute outline research_data in
  let! optimized_post := SEOOptimizationAgent.execute blog_post in
  let! end_time := now in
  let generation_time := total_seconds start_time end_time in
  ret (BlogGenerationResult.mk
         (SEOOptimizedPost.title optimized_post)
         (SEOOptimizedPost.meta_description optimized_post)
         (SEOOptimizedPost.content optimized_post)
         (SEOOptimizedPost.word_count optimized_post)
         (SEOOptimizedPost.keywords optimized_post)
         (SEOOptimizedPost.sources optimized_post)
         (SEOOptimizedPost.keyword_density optimized_post)
         (SEOOptimizedPost.readability_score optimized_post)
         generation_time).

Definition get_generation_status : PyM (gmap string Value) :=
  let! c := get_context in
  ret ({[ "topic" := topic c;
          "keywords" := keywords c;
          "target_word_count" := target_word_count c;
          "metadata" := metadata c ]} : gmap string Value).

End BlogGenerationOrchestrator.

(** ** Notions the stated properties are phrased with *)

Module Spec.

(** The value stored under [key] in the context's metadata, if metadata is
    a dict holding it. *)
Definition metadata_lookup (c : AgentContext) (key : string) : option Value :=
  match metadata c with
  | VDict d => d !! key
  | _ => None
  end.

(** Whitespace-token count, in the words of the specification: the number
    of maximal runs of non-whitespace characters, counted at the character
    that starts each run.  [after_space] tells whether the previous
    character was whitespace (or there was none). *)
Fixpoint token_starts (after_space : bool) (s : string) : nat :=
  match s with
  | EmptyString => 0
  | String c s' =>
      ((if after_space && negb (Py.isspace c) then 1 else 0)
       + token_starts (Py.isspace c) s')%nat
  end.

Definition whitespace_token_count (s : string) : nat := token_starts true s.

(** The three kinds of outline section the planning contract names, with
    their word budgets. *)
Definition introduction : Section_.t :=
  Section_.mk "Introduction" "section" (Some 200)
    (Some ["Context setting"; "Problem statement"; "Article overview"]) None.

Definition finding_section (finding : string) : Section_.t :=
  Section_.mk finding "section" (Some 300) None
    (Some [ Subsection.mk "Current Trends" "subsection" (Some 150);
            Subsection.mk "Best Practices" "subsection" (Some 150) ]).

Definition conclusion : Section_.t :=
  Section_.mk "Conclusion" "section" (Some 200)
    (Some ["Summary of key points"; "Future implications"; "Call to action"])
    None.

(** [t], at position [i] of [items], has the greatest key, and no earlier
    item has a key as great: the first-seen maximum. *)
Definition first_maximum {A : Type} (key : A → Q) (items : list A)
    (i : nat) (t : A) : Prop :=
  items !! i = Some t
  ∧ (∀ (j : nat) (c : A), items !! j = Some c → (key c <= key t)%Q)
  ∧ (∀ (j : nat) (c : A), (j < i)%nat → items !! j = Some c → (key c < key t)%Q).

Fixpoint sum_Z (l : list Z) : Z :=
  match l with
  | [] => 0
  | x :: rest => x + sum_Z rest
  end.

(** Word budget of a subsection, and of a section together with its
    subsections; an absent budget counts as 0. *)
Definition subsection_budget (sub : Subsection.t) : Z :=
  default 0 (Subsection.target_word_count sub).

Definition section_budget (sec : Section_.t) : Z :=
  default 0 (Section_.target_word_count sec)
  + sum_Z (subsection_budget <$> default [] (Section_.subsections sec)).

(** A result with its [generation_time] blanked. *)
Definition forget_time (r : BlogGenerationResult.t) : BlogGenerationResult.t :=
  BlogGenerationResult.mk
    (BlogGenerationResult.title r) (BlogGenerationResult.meta_description r)
    (BlogGenerationResult.content r) (BlogGenerationResult.word_count r)
    (BlogGenerationResult.keywords r) (BlogGenerationResult.sources r)
    (BlogGenerationResult.keyword_density r)
    (BlogGenerationResult.readability_score r) 0%Q.

(** The outline with another [estimated_word_count]. *)
Definition with_estimate (o : BlogOutline.t) (n : Z) : BlogOutline.t :=
  BlogOutline.mk (BlogOutline.title o) (BlogOutline.meta_description o)
    (BlogOutline.sections o) (BlogOutline.target_keywords o) n.

End Spec.

(** ** Worlds and providers used as concrete inputs *)

Module Sample.

(** A freshly constructed orchestrator, default word target, with a clock
    that advances one millisecond per reading. *)
Definition fresh_world : World :=
  mkWorld (BlogGenerationOrchestrator.init 0 2000) (λ n, Z.of_nat n * 1000).

(** The two-candidate scenario of the specification. *)
Definition two_candidates : ResearchAgent.Provider :=
  ResearchAgent.mkProvider
    [ TrendingTopic.mk "Remote Work" (95 # 100);
      TrendingTopic.mk "AI in HR" (92 # 100) ]
    (ResearchAgent.gather ResearchAgent.placeholder).

Definition research : ResearchResult.t :=
  ResearchResult.mk [] "Employee Wellbeing" ["Point A"; "Point B"]
    ["HBR"] ["wellbeing"].

End Sample.

(** ** Notions used by the further properties *)

Module Shape.

(** Whether the character before the end of [s] is whitespace;
    [after_space] answers for the empty string. *)
Fixpoint ends_in_space (after_space : bool) (s : string) : bool :=
  match s with
  | EmptyString => after_space
  | String c s' => ends_in_space (Py.isspace c) s'
  end.

Fixpoint all_space (s : string) : bool :=
  match s with
  | EmptyString => true
  | String c s' => Py.isspace c && all_space s'
  end.

(** [None] or a dict: the values of [metadata] on which item assignment
    works. *)
Definition dict_or_none (v : Value) : bool :=
  match v with
  | VNone | VDict _ => true
  | _ => false
  end.

(** A key whose name does not start with two underscores.  Such a key is
    an attribute of the context only if it is one of the five fields. *)
Definition plain_key (key : string) : bool := negb (String.prefix "__" key).



(** A section that renders exactly one of its two bodies: key points and
    no subsections, or subsections (each of type "subsection") and no key
    points. *)
Definition one_body (sec : Section_.t) : Prop :=
  Section_.type sec = "section"
  ∧ ((∃ points, Section_.key_points sec = Some points ∧ points ≠ []
               ∧ Section_.subsections sec = None)
     ∨ (∃ subs, Section_.subsections sec = Some subs ∧ subs ≠ []
              ∧ Section_.key_points sec = None
              ∧ Forall (λ sub, Subsection.type sub = "subsection") subs)).


(** Number of whitespace-separated tokens of each string of a list,
    summed. *)
Definition total_tokens (parts : list string) : nat :=
  sum_list_with Spec.whitespace_token_count parts.

End Shape.

(** * Properties *)

(** Exposes the body of a stage before its run is computed. *)
Ltac stage :=
  unfold ResearchAgent.execute, ContentPlanningAgent.execute,
    ContentGenerationAgent.execute, SEOOptimizationAgent.execute.

(** ** Strings *)

Lemma split_from_length (tok : option string) (s : string) :
  length (Py.split_from tok s)
  = (match tok with Some _ => 1 | None => 0 end
     + Spec.token_starts (match tok with Some _ => false | None => true end) s)%nat.
Proof.
  revert tok. induction s as [|c s IH]; intros tok.
  - destruct tok; reflexivity.
  - cbn [Py.split_from Spec.token_starts].
    destruct (Py.isspace c) eqn:Hc.
    + destruct tok as [t|]; cbn [length]; rewrite IH; cbn; lia.
    + rewrite IH. destruct tok as [t|]; cbn; lia.
Qed.

Lemma split_length (s : string) :
  length (Py.split s) = Spec.whitespace_token_count s.
Proof. unfold Py.split. rewrite split_from_length. reflexivity. Qed.

(** ** Planning *)

Lemma create_sections_loop (key_points : list string) :
  ∀ (start : Z) (acc : list Section_.t),
    fold_left
      (λ (sections : list Section_.t) '(i, point),
         sections ++
           [Section_.mk point "section" (Some 300) None
              (Some [ Subsection.mk "Current Trends" "subsection" (Some 150);
                      Subsection.mk "Best Practices" "subsection" (Some 150) ])])
      (Py.enumerate key_points start) acc
    = acc ++ map Spec.finding_section key_points.
Proof.
  induction key_points as [|p ps IH]; intros start acc; cbn.
  - by rewrite app_nil_r.
  - rewrite IH. by rewrite <- app_assoc.
Qed.

Lemma create_sections_shape (topic : string) (key_points : list string) :
  ContentPlanningAgent._create_sections topic key_points
  = Spec.introduction :: map Spec.finding_section key_points ++ [Spec.conclusion].
Proof.
  unfold ContentPlanningAgent._create_sections.
  pose proof (create_sections_loop key_points 1 [Spec.introduction]) as H.
  unfold Spec.introduction in H at 1. rewrite H. reflexivity.
Qed.

Lemma subsection_loop_sum (subs : list Subsection.t) :
  ∀ acc : Z,
    fold_left
      (λ total_words subsection,
         total_words + default 0 (Subsection.target_word_count subsection))
      subs acc
    = acc + Spec.sum_Z (Spec.subsection_budget <$> subs).
Proof.
  induction subs as [|x xs IH]; intros acc; cbn.
  - lia.
  - rewrite IH. unfold Spec.subsection_budget at 2. lia.
Qed.

Lemma section_loop_sum (sections : list Section_.t) :
  ∀ acc : Z,
    fold_left
      (λ total_words section,
         let total_words :=
           total_words + default 0 (Section_.target_word_count section) in
         fold_left
           (λ total_words subsection,
              total_words + default 0 (Subsection.target_word_count subsection))
           (default [] (Section_.subsections section))
           total_words)
      sections acc
    = acc + Spec.sum_Z (Spec.section_budget <$> sections).
Proof.
  induction sections as [|s ss IH]; intros acc; cbn.
  - lia.
  - rewrite IH, subsection_loop_sum. unfold Spec.section_budget at 2. lia.
Qed.

Lemma calculate_word_count_sum (sections : list Section_.t) :
  ContentPlanningAgent._calculate_word_count sections
  = Spec.sum_Z (Spec.section_budget <$> sections).
Proof.
  unfold ContentPlanningAgent._calculate_word_count.
  rewrite section_loop_sum. lia.
Qed.

Lemma sum_Z_app (l1 l2 : list Z) :
  Spec.sum_Z (l1 ++ l2) = Spec.sum_Z l1 + Spec.sum_Z l2.
Proof. induction l1 as [|x xs IH]; cbn; [lia|]. rewrite IH. lia. Qed.

Lemma sum_finding_sections (key_points : list string) :
  Spec.sum_Z (Spec.section_budget <$> map Spec.finding_section key_points)
  = 600 * Z.of_nat (length key_points).
Proof.
  induction key_points as [|p ps IH]; [stage; reflexivity|].
  cbn [map fmap list_fmap length Spec.sum_Z].
  change (Spec.section_budget (Spec.finding_section p)) with 600.
  cbn [map fmap list_fmap] in IH. rewrite IH. lia.
Qed.

(** C3.  Planning on a research result with N key findings returns an
    outline whose sections are the Introduction, one section per key finding
    in order (each titled by its finding, with a budget of 300 and exactly
    the two subsections "Current Trends" and "Best Practices" of 150 each),
    and the Conclusion: N+2 sections; and its [estimated_word_count], the
    sum of all section and subsection budgets, is 400 + 600*N. *)
Theorem planning_outline_shape_and_estimate
    (research : ResearchResult.t) (w : World) :
  ∃ (outline : BlogOutline.t) (w' : World),
    ContentPlanningAgent.execute research w = (Returned outline, w')
    ∧ BlogOutline.sections outline
      = Spec.introduction
          :: map Spec.finding_section (ResearchResult.key_findings research)
          ++ [Spec.conclusion]
    ∧ length (BlogOutline.sections outline)
      = (length (ResearchResult.key_findings research) + 2)%nat
    ∧ BlogOutline.estimated_word_count outline
      = Spec.sum_Z (Spec.section_budget <$> BlogOutline.sections outline)
    ∧ BlogOutline.estimated_word_count outline
      = 400 + 600 * Z.of_nat (length (ResearchResult.key_findings research))
    ∧ ∀ (i : nat) (finding : string),
        ResearchResult.key_findings research !! i = Some finding →
        ∃ sec : Section_.t,
          BlogOutline.sections outline !! S i = Some sec
          ∧ Section_.title sec = finding
          ∧ Section_.target_word_count sec = Some 300
          ∧ Section_.key_points sec = None
          ∧ Section_.subsections sec
            = Some [ Subsection.mk "Current Trends" "subsection" (Some 150);
                     Subsection.mk "Best Practices" "subsection" (Some 150) ].
Proof.
  eexists. eexists. split; [stage; reflexivity|].
  cbn [BlogOutline.sections BlogOutline.estimated_word_count].
  rewrite create_sections_shape.
  rewrite calculate_word_count_sum.
  repeat split.
  3: { intros i finding Hi. exists (Spec.finding_section finding).
       split; [|by repeat split].
       change (map Spec.finding_section) with (fmap (M:=list) Spec.finding_section).
       rewrite lookup_cons, lookup_app_l
         by (rewrite length_fmap; by eapply lookup_lt_Some).
       by rewrite list_lookup_fmap, Hi. }
  - cbn [length]. rewrite length_app, length_map. cbn. lia.
  - rewrite fmap_cons, fmap_app. cbn [Spec.sum_Z].
    rewrite sum_Z_app, sum_finding_sections.
    change (Spec.section_budget Spec.introduction) with 200.
    change (Spec.sum_Z (Spec.section_budget <$> [Spec.conclusion])) with 200.
    lia.
Qed.

(** ** The monad *)

Lemma bind_returned_inv {A B : Type} (m : PyM A) (k : A → PyM B)
    (w w' : World) (b : B) :
  bind m k w = (Returned b, w') →
  ∃ (a : A) (w1 : World), m w = (Returned a, w1) ∧ k a w1 = (Returned b, w').
Proof.
  unfold bind. destruct (m w) as [[a|e] w1]; [eauto | discriminate].
Qed.

Lemma ret_inv {A : Type} (a b : A) (w w' : World) :
  ret a w = (Returned b, w') → a = b ∧ w = w'.
Proof. unfold ret. by intros [= -> ->]. Qed.

(** ** Keyword density *)

Lemma keyword_density_lookup (content : string) (keywords : list string) (k : string) :
  SEOOptimizationAgent._calculate_keyword_density content keywords !! k
  = if decide (k ∈ keywords) then Some (2 # 100)%Q else None.
Proof.
  unfold SEOOptimizationAgent._calculate_keyword_density.
  assert (H : ∀ d0 : gmap string Q,
    fold_left (λ d keyword, <[keyword := (2 # 100)%Q]> d) keywords d0 !! k
    = if decide (k ∈ keywords) then Some (2 # 100)%Q else d0 !! k).
  { induction keywords as [|x xs IH]; intros d0; cbn [fold_left].
    - case_decide as Hin; [by apply elem_of_nil in Hin | done].
    - rewrite IH.
      destruct (decide (k ∈ xs)) as [Hxs|Hxs].
      + rewrite decide_True; [done | by apply list_elem_of_further].
      + destruct (decide (x = k)) as [->|Hne].
        * rewrite decide_True; [apply lookup_insert_eq | apply list_elem_of_here].
        * rewrite decide_False, lookup_insert_ne; [done | done |].
          intros [->|Hin]%elem_of_cons; done. }
  rewrite H. case_decide; [done | apply lookup_empty].
Qed.

Lemma keyword_density_dom (content : string) (keywords : list string) :
  dom (SEOOptimizationAgent._calculate_keyword_density content keywords)
  = list_to_set keywords.
Proof.
  apply set_eq. intros k.
  rewrite elem_of_dom, keyword_density_lookup, elem_of_list_to_set.
  case_decide as Hin; split; intros Hk; try done.
Qed.

(** ** Pass-through of sources *)

(** C4.  In every run of [generate_blog_post] that returns, the sources
    list is handed on unchanged from stage to stage: the draft's sources are
    the research result's, the optimized post's are the draft's, and the
    final result's are the optimized post's.  The two stages that copy the
    list do so for every input. *)
Theorem sources_threaded_unchanged
    (P : ResearchAgent.Provider) (topic : option string) (w w_end : World)
    (result : BlogGenerationResult.t)
    (Hrun : BlogGenerationOrchestrator.generate_blog_post P topic w
            = (Returned result, w_end)) :
  (∃ (research : ResearchResult.t) (outline : BlogOutline.t)
     (draft : BlogPost.t) (optimized : SEOOptimizedPost.t)
     (w1 w2 w3 w4 : World),
      ResearchAgent.execute P topic (snd (now w)) = (Returned research, w1)
      ∧ ContentPlanningAgent.execute research w1 = (Returned outline, w2)
      ∧ ContentGenerationAgent.execute outline research w2 = (Returned draft, w3)
      ∧ SEOOptimizationAgent.execute draft w3 = (Returned optimized, w4)
      ∧ BlogPost.sources draft = ResearchResult.sources research
      ∧ SEOOptimizedPost.sources optimized = BlogPost.sources draft
      ∧ BlogGenerationResult.sources result = SEOOptimizedPost.sources optimized)
  ∧ (∀ outline research w0,
       outcome_map BlogPost.sources
         (fst (ContentGenerationAgent.execute outline research w0))
       = Returned (ResearchResult.sources research))
  ∧ (∀ draft w0,
       outcome_map SEOOptimizedPost.sources
         (fst (SEOOptimizationAgent.execute draft w0))
       = Returned (BlogPost.sources draft)).
Proof.
  split; [|split; reflexivity].
  unfold BlogGenerationOrchestrator.generate_blog_post in Hrun.
  apply bind_returned_inv in Hrun as (t0 & w0 & Hnow & Hrun).
  apply bind_returned_inv in Hrun as (research & w1 & Hres & Hrun).
  apply bind_returned_inv in Hrun as (outline & w2 & Hplan & Hrun).
  apply bind_returned_inv in Hrun as (draft & w3 & Hgen & Hrun).
  apply bind_returned_inv in Hrun as (optimized & w4 & Hseo & Hrun).
  apply bind_returned_inv in Hrun as (t1 & w5 & Hnow' & Hrun).
  apply ret_inv in Hrun as [<- _].
  assert (w0 = snd (now w)) as -> by (by inversion Hnow).
  exists research, outline, draft, optimized, w1, w2, w3, w4.
  repeat split; try assumption.
  - by inversion Hgen.
  - by inversion Hseo.
Qed.

(** ** Generation *)

(** C5.  For every outline, the draft returned by the Generation stage has
    [word_count] equal to the whitespace-token count of its own [content];
    the count is taken from the content and not from the outline's
    [estimated_word_count], which has no influence on the draft. *)
Theorem draft_word_count_is_token_count
    (outline : BlogOutline.t) (research : ResearchResult.t) (w : World) :
  ∃ (draft : BlogPost.t) (w' : World),
    ContentGenerationAgent.execute outline research w = (Returned draft, w')
    ∧ BlogPost.word_count draft
      = Z.of_nat (Spec.whitespace_token_count (BlogPost.content draft))
    ∧ BlogPost.word_count draft
      = Z.of_nat (length (Py.split (BlogPost.content draft)))
    ∧ ∀ n : Z,
        fst (ContentGenerationAgent.execute (Spec.with_estimate outline n) research w)
        = Returned draft.
Proof.
  eexists. eexists. split; [stage; reflexivity|].
  cbn [BlogPost.word_count BlogPost.content].
  split; [by rewrite split_length|].
  split; stage; reflexivity.
Qed.

(** ** Optimization *)

(** C7.  For every draft, the Optimization stage returns a
    [keyword_density] mapping whose keys are exactly the keywords of the
    draft (one entry for each), every value in [0,1], and a
    [readability_score] in [0,100]. *)
Theorem keyword_density_and_readability_bounds (draft : BlogPost.t) (w : World) :
  ∃ (post : SEOOptimizedPost.t) (w' : World),
    SEOOptimizationAgent.execute draft w = (Returned post, w')
    ∧ dom (SEOOptimizedPost.keyword_density post)
      = list_to_set (BlogPost.keywords draft)
    ∧ (∀ k : string,
         k ∈ BlogPost.keywords draft
         ↔ is_Some (SEOOptimizedPost.keyword_density post !! k))
    ∧ size (SEOOptimizedPost.keyword_density post)
      = length (remove_dups (BlogPost.keywords draft))
    ∧ (∀ (k : string) (v : Q),
         SEOOptimizedPost.keyword_density post !! k = Some v →
         (0 <= v)%Q ∧ (v <= 1)%Q)
    ∧ (0 <= SEOOptimizedPost.readability_score post)%Q
    ∧ (SEOOptimizedPost.readability_score post <= 100)%Q.
Proof.
  eexists. eexists. split; [stage; reflexivity|].
  cbn [SEOOptimizedPost.keyword_density SEOOptimizedPost.readability_score].
  unfold SEOOptimizationAgent._optimize_content,
    SEOOptimizationAgent._calculate_readability_score.
  split; [apply keyword_density_dom|].
  split.
  { intros k. rewrite keyword_density_lookup.
    case_decide as Hin; split; intros Hk; try done. }
  split.
  { rewrite <- size_dom, keyword_density_dom.
    rewrite <- (size_list_to_set (C:=gset string)
                  (remove_dups (BlogPost.keywords draft)))
      by apply NoDup_remove_dups.
    f_equal. apply set_eq. intros k.
    by rewrite !elem_of_list_to_set, elem_of_remove_dups. }
  split.
  { intros k v. rewrite keyword_density_lookup.
    case_decide; [|done]. intros [= <-]. split; by vm_compute. }
  split; by vm_compute.
Qed.

(** C8.  For every draft, the Optimization stage leaves title,
    meta-description and content as they are. *)
Theorem optimization_is_identity_on_text (draft : BlogPost.t) (w : World) :
  ∃ (post : SEOOptimizedPost.t) (w' : World),
    SEOOptimizationAgent.execute draft w = (Returned post, w')
    ∧ SEOOptimizedPost.title post = BlogPost.title draft
    ∧ SEOOptimizedPost.meta_description post = BlogPost.meta_description draft
    ∧ SEOOptimizedPost.content post = BlogPost.content draft.
Proof.
  eexists. eexists. split; [stage; reflexivity|]. repeat split.
Qed.

(** ** Selection of the trending topic *)

Section MaxBy.

Context {A : Type} (key : A → Q).

Lemma float_gt_true (a b : Q) : Py.float_gt a b = true → (b < a)%Q.
Proof.
  unfold Py.float_gt. intros H%negb_true_iff.
  apply Qnot_le_lt. intros Hle%Qle_bool_iff. congruence.
Qed.

Lemma float_gt_false (a b : Q) : Py.float_gt a b = false → (a <= b)%Q.
Proof.
  unfold Py.float_gt. intros H%negb_false_iff. by apply Qle_bool_iff.
Qed.

(** The running maximum stays the first-seen maximum of what was read. *)
Lemma max_loop_invariant (rest : list A) :
  ∀ (seen : list A) (i : nat) (best : A),
    Spec.first_maximum key seen i best →
    ∃ i', Spec.first_maximum key (seen ++ rest) i'
            (fold_left
               (λ best y, if Py.float_gt (key y) (key best) then y else best)
               rest best).
Proof.
  induction rest as [|y ys IH]; intros seen i best Hinv.
  - exists i. by rewrite app_nil_r.
  - cbn [fold_left].
    replace (seen ++ y :: ys) with ((seen ++ [y]) ++ ys)
      by (by rewrite <- app_assoc).
    destruct Hinv as (Hi & Hmax & Hfirst).
    pose proof (lookup_lt_Some _ _ _ Hi) as Hlen.
    cbv beta.
    destruct (Py.float_gt (key y) (key best)) eqn:Hgt.
    + apply float_gt_true in Hgt.
      apply (IH _ (length seen)). repeat split.
      * rewrite lookup_app_r by lia. by rewrite Nat.sub_diag.
      * intros j c Hj.
        destruct (decide (j < length seen)%nat) as [Hlt|Hge].
        -- rewrite lookup_app_l in Hj by done.
           apply Qlt_le_weak. eapply Qle_lt_trans; [by eapply Hmax | done].
        -- rewrite lookup_app_r in Hj by lia.
           destruct (j - length seen)%nat; [|done].
           injection Hj as <-. apply Qle_refl.
      * intros j c Hlt Hj. rewrite lookup_app_l in Hj by done.
        eapply Qle_lt_trans; [by eapply Hmax | done].
    + apply float_gt_false in Hgt.
      apply (IH _ i). repeat split.
      * by rewrite lookup_app_l.
      * intros j c Hj.
        destruct (decide (j < length seen)%nat) as [Hlt|Hge].
        -- rewrite lookup_app_l in Hj by done. by eapply Hmax.
        -- rewrite lookup_app_r in Hj by lia.
           destruct (j - length seen)%nat; [|done].
           by injection Hj as <-.
      * intros j c Hlt Hj. rewrite lookup_app_l in Hj by lia.
        by eapply Hfirst.
Qed.

Lemma max_by_first_maximum (items : list A) :
  items ≠ [] →
  ∃ (i : nat) (t : A),
    Py.max_by key items = Some t ∧ Spec.first_maximum key items i t.
Proof.
  destruct items as [|x rest]; [done|]. intros _.
  destruct (max_loop_invariant rest [x] 0 x) as [i Hi].
  - repeat split.
    + intros [|j] c Hj; [|done]. injection Hj as <-. apply Qle_refl.
    + intros j c Hlt. lia.
  - exists i. eexists. split; [reflexivity | exact Hi].
Qed.

Lemma max_by_empty : Py.max_by key [] = None.
Proof. reflexivity. Qed.

End MaxBy.

(** ** Research *)

Lemma truthy_false_cases (query : option string) :
  Py.truthy query = false → query = None ∨ query = Some "".
Proof. destruct query as [[|a s]|]; cbn; auto; discriminate. Qed.

(** What [execute] does once a trending topic has been selected. *)
Lemma research_execute_absent (P : ResearchAgent.Provider) (query : option string)
    (t : TrendingTopic.t) (w : World) :
  Py.truthy query = false →
  Py.max_by TrendingTopic.relevance_score (ResearchAgent.candidates P) = Some t →
  ∃ (r : ResearchResult.t) (w' : World),
    ResearchAgent.execute P query w = (Returned r, w')
    ∧ ResearchResult.selected_topic r = TrendingTopic.title t
    ∧ ResearchResult.key_findings r
      = Gathered.key_points (ResearchAgent.gather P (TrendingTopic.title t))
    ∧ topic (context w') = VStr (TrendingTopic.title t).
Proof.
  intros Hq Hmax.
  unfold ResearchAgent.execute, ResearchAgent._find_trending_topics.
  rewrite Hq. cbn [negb]. unfold bind at 1 2. rewrite Hmax.
  eexists. eexists. split; [stage; reflexivity|]. repeat split.
Qed.

(** C6.  When the query is absent (not given, or the empty string) and
    there is at least one candidate, the Research stage selects the
    candidate with the maximum relevance score, the first one seen among
    equals, returns its title as [selected_topic] and writes it into the
    context's [topic]. *)
Theorem research_selects_first_maximum
    (P : ResearchAgent.Provider) (query : option string) (w : World)
    (Habsent : Py.truthy query = false)
    (Hcandidates : ResearchAgent.candidates P ≠ []) :
  ∃ (i : nat) (t : TrendingTopic.t) (r : ResearchResult.t) (w' : World),
    Spec.first_maximum TrendingTopic.relevance_score
      (ResearchAgent.candidates P) i t
    ∧ ResearchAgent.execute P query w = (Returned r, w')
    ∧ ResearchResult.selected_topic r = TrendingTopic.title t
    ∧ topic (context w') = VStr (TrendingTopic.title t).
Proof.
  destruct (max_by_first_maximum TrendingTopic.relevance_score _ Hcandidates)
    as (i & t & Hmax & Hfirst).
  destruct (research_execute_absent P query t w Habsent Hmax)
    as (r & w' & Hrun & Hsel & _ & Htopic).
  by exists i, t, r, w'.
Qed.

(** The scenario of the specification: of "Remote Work" (0.95) and
    "AI in HR" (0.92), "Remote Work" is selected and written. *)
Lemma research_selects_first_maximum_witness :
  Py.truthy None = false
  ∧ ResearchAgent.candidates Sample.two_candidates ≠ []
  ∧ ∃ (i : nat) (t : TrendingTopic.t) (r : ResearchResult.t) (w' : World),
      Spec.first_maximum TrendingTopic.relevance_score
        (ResearchAgent.candidates Sample.two_candidates) i t
      ∧ ResearchAgent.execute Sample.two_candidates None Sample.fresh_world
        = (Returned r, w')
      ∧ ResearchResult.selected_topic r = TrendingTopic.title t
      ∧ topic (context w') = VStr (TrendingTopic.title t)
      ∧ ResearchResult.selected_topic r = "Remote Work"
      ∧ topic (context w') = VStr "Remote Work".
Proof.
  split; [stage; reflexivity|]. split; [discriminate|].
  destruct (research_selects_first_maximum Sample.two_candidates None
              Sample.fresh_world eq_refl ltac:(discriminate))
    as (i & t & r & w' & Hfirst & Hrun & Hsel & Htopic).
  exists i, t, r, w'. repeat split; try assumption.
  - apply Hfirst.
  - apply Hfirst.
  - apply Hfirst.
  - injection Hrun as <- _. reflexivity.
  - injection Hrun as _ <-. reflexivity.
Defined.

(** ** Orchestrator *)

(** The literal candidates of the source: the first, with score 0.95, is
    selected. *)
Example research_placeholder_selection :
  ∃ (r : ResearchResult.t) (w' : World),
    ResearchAgent.execute ResearchAgent.placeholder None Sample.fresh_world
    = (Returned r, w')
    ∧ ResearchResult.selected_topic r = "Remote Work Best Practices 2024"
    ∧ topic (context w') = VStr "Remote Work Best Practices 2024".
Proof.
  destruct (research_execute_absent ResearchAgent.placeholder None
              (TrendingTopic.mk "Remote Work Best Practices 2024" (95 # 100))
              Sample.fresh_world eq_refl eq_refl)
    as (r & w' & Hrun & Hsel & _ & Htopic).
  by exists r, w'.
Qed.

(** Among equal scores the first one seen is kept; no candidate at all is a
    [ValueError]. *)
Example max_by_tie :
  Py.max_by TrendingTopic.relevance_score
    [ TrendingTopic.mk "A" (1 # 2); TrendingTopic.mk "B" (9 # 10);
      TrendingTopic.mk "C" (9 # 10) ]
  = Some (TrendingTopic.mk "B" (9 # 10)).
Proof. reflexivity. Qed.

Example research_no_candidates (w : World) :
  fst (ResearchAgent.execute
         (ResearchAgent.mkProvider [] (ResearchAgent.gather ResearchAgent.placeholder))
         None w)
  = Raised ValueError.
Proof. reflexivity. Qed.

(** C9.  Two runs of [generate_blog_post] with the same provider and the
    same topic, from any two states of the context and with any two clocks,
    have the same outcome: both raise the same exception, or both return
    results equal in every field other than [generation_time]. *)
Theorem two_runs_agree_up_to_generation_time
    (P : ResearchAgent.Provider) (topic : option string) (w1 w2 : World) :
  outcome_map Spec.forget_time
    (fst (BlogGenerationOrchestrator.generate_blog_post P topic w1))
  = outcome_map Spec.forget_time
      (fst (BlogGenerationOrchestrator.generate_blog_post P topic w2)).
Proof.
  unfold BlogGenerationOrchestrator.generate_blog_post, ResearchAgent.execute,
    ResearchAgent._find_trending_topics.
  destruct (Py.truthy topic) eqn:Htopic; cbn [negb].
  - reflexivity.
  - unfold bind at 1 2 3. unfold bind at 8 9 10. cbn [now fst snd].
    destruct (Py.max_by _ _); reflexivity.
Qed.

Lemma truthy_nonempty (t : string) : t ≠ "" → Py.truthy (Some t) = true.
Proof. by destruct t. Qed.

(** C10.  In a run of [generate_blog_post] with an explicit non-empty
    topic, no stage writes the context's [topic]: each of the four stages
    leaves it as it was, so after the run the status snapshot reports the
    value it had before, which for a freshly constructed orchestrator is the
    empty string, while the title of the post is built from the topic given.
    The [topic] of the context can differ after a run only if the topic
    argument was absent. *)
Theorem explicit_topic_leaves_context_topic
    (P : ResearchAgent.Provider) (t : string) (c : AgentContext)
    (clock : nat → Z) (Ht : t ≠ "") :
  (∃ (result : BlogGenerationResult.t) (w' : World)
     (status : gmap string Value),
      BlogGenerationOrchestrator.generate_blog_post P (Some t) (mkWorld c clock)
      = (Returned result, w')
      ∧ topic (context w') = topic c
      ∧ BlogGenerationOrchestrator.get_generation_status w' = (Returned status, w')
      ∧ status !! "topic" = Some (topic c)
      ∧ BlogGenerationResult.title result
        = "The Complete Guide to " +:+ t +:+ ": Strategies for 2024")
  ∧ (∀ (class_timestamp target : Z),
      ∃ (result : BlogGenerationResult.t) (w' : World)
        (status : gmap string Value),
        BlogGenerationOrchestrator.generate_blog_post P (Some t)
          (mkWorld (BlogGenerationOrchestrator.init class_timestamp target) clock)
        = (Returned result, w')
        ∧ BlogGenerationOrchestrator.get_generation_status w'
          = (Returned status, w')
        ∧ status !! "topic" = Some (VStr ""))
  ∧ (∀ w : World,
      topic (context (snd (ResearchAgent.execute P (Some t) w)))
      = topic (context w))
  ∧ (∀ research w,
      topic (context (snd (ContentPlanningAgent.execute research w)))
      = topic (context w))
  ∧ (∀ outline research w,
      topic (context (snd (ContentGenerationAgent.execute outline research w)))
      = topic (context w))
  ∧ (∀ draft w,
      topic (context (snd (SEOOptimizationAgent.execute draft w)))
      = topic (context w))
  ∧ (∀ (query : option string) (w : World),
      Py.truthy query = false
      ∨ topic (context
                 (snd (BlogGenerationOrchestrator.generate_blog_post P query w)))
        = topic (context w)).
Proof.
  pose proof (truthy_nonempty t Ht) as Htruthy.
  assert (Hrun : ∀ c0 : AgentContext,
    ∃ (result : BlogGenerationResult.t) (w' : World),
      BlogGenerationOrchestrator.generate_blog_post P (Some t) (mkWorld c0 clock)
      = (Returned result, w')
      ∧ topic (context w') = topic c0
      ∧ BlogGenerationResult.title result
        = "The Complete Guide to " +:+ t +:+ ": Strategies for 2024").
  { intros c0. destruct t as [|a s]; [done|].
    eexists. eexists. split; [stage; reflexivity|]. split; stage; reflexivity. }
  split.
  { destruct (Hrun c) as (result & w' & Hgen & Htopic & Htitle).
    exists result, w'. eexists. split; [exact Hgen|].
    split; [exact Htopic|]. split; [stage; reflexivity|].
    split; [|exact Htitle]. rewrite <- Htopic. reflexivity. }
  split.
  { intros ts target.
    destruct (Hrun (BlogGenerationOrchestrator.init ts target))
      as (result & w' & Hgen & Htopic & _).
    exists result, w'. eexists. split; [exact Hgen|].
    split; [stage; reflexivity|]. cbn in Htopic. rewrite <- Htopic. reflexivity. }
  split.
  { intros w. destruct t as [|a s]; [done|]. reflexivity. }
  repeat (split; [stage; reflexivity|]).
  intros query w.
  destruct query as [[|a s]|]; [by left | right; reflexivity | by left].
Qed.

Lemma explicit_topic_leaves_context_topic_witness :
  "Employee Wellbeing" ≠ ""
  ∧ ∃ (result : BlogGenerationResult.t) (w' : World)
      (status : gmap string Value),
      BlogGenerationOrchestrator.generate_blog_post ResearchAgent.placeholder
        (Some "Employee Wellbeing") Sample.fresh_world
      = (Returned result, w')
      ∧ BlogGenerationOrchestrator.get_generation_status w'
        = (Returned status, w')
      ∧ status !! "topic" = Some (VStr "")
      ∧ BlogGenerationResult.title result
        = "The Complete Guide to Employee Wellbeing: Strategies for 2024".
Proof.
  split; [discriminate|].
  destruct (explicit_topic_leaves_context_topic ResearchAgent.placeholder
              "Employee Wellbeing" (context Sample.fresh_world)
              (wall_clock Sample.fresh_world) ltac:(discriminate))
    as [(result & w' & status & Hgen & Htopic & Hstatus & Hlookup & Htitle) _].
  exists result, w', status. repeat split; assumption.
Defined.

(** ** After Research *)

(** Once the Research stage has returned, the remaining stages and the
    assembly of the result always complete. *)
Lemma generate_after_research
    (P : ResearchAgent.Provider) (query : option string) (w w1 : World)
    (research : ResearchResult.t) :
  ResearchAgent.execute P query (snd (now w)) = (Returned research, w1) →
  ∃ (outline : BlogOutline.t) (w2 : World)
    (result : BlogGenerationResult.t) (w_end : World),
    ContentPlanningAgent.execute research w1 = (Returned outline, w2)
    ∧ BlogGenerationOrchestrator.generate_blog_post P query w
      = (Returned result, w_end)
    ∧ BlogGenerationResult.sources result = ResearchResult.sources research.
Proof.
  intros Hres.
  unfold BlogGenerationOrchestrator.generate_blog_post.
  unfold bind at 1. cbn [now]. cbn [now snd] in Hres.
  unfold bind at 1. rewrite Hres.
  eexists. eexists. eexists. eexists.
  split; [stage; reflexivity|]. split; stage; reflexivity.
Qed.

Lemma sources_threaded_unchanged_witness :
  ∃ (result : BlogGenerationResult.t) (w_end : World),
    BlogGenerationOrchestrator.generate_blog_post
      ResearchAgent.placeholder (Some "Hiring") Sample.fresh_world
    = (Returned result, w_end)
    ∧ ∃ (research : ResearchResult.t) (draft : BlogPost.t)
        (optimized : SEOOptimizedPost.t),
        ResearchResult.sources research
        = [ "Harvard Business Review"; "Society for Human Resource Management";
            "LinkedIn Workplace Research" ]
        ∧ BlogPost.sources draft = ResearchResult.sources research
        ∧ SEOOptimizedPost.sources optimized = BlogPost.sources draft
        ∧ BlogGenerationResult.sources result = SEOOptimizedPost.sources optimized.
Proof.
  destruct (ResearchAgent.execute ResearchAgent.placeholder (Some "Hiring")
              (snd (now Sample.fresh_world))) as [[research0|e] w10] eqn:Hres0;
    [|discriminate Hres0].
  destruct (generate_after_research ResearchAgent.placeholder (Some "Hiring")
              Sample.fresh_world w10 research0 Hres0)
    as (outline0 & w20 & result & w_end & _ & Hrun & _).
  exists result, w_end. split; [exact Hrun|].
  destruct (sources_threaded_unchanged ResearchAgent.placeholder (Some "Hiring")
              Sample.fresh_world w_end result Hrun)
    as [(research & outline & draft & optimized & w1 & w2 & w3 & w4
         & Hres & _ & _ & _ & Hdraft & Hopt & Hresult) _].
  exists research, draft, optimized.
  repeat split; try assumption.
  rewrite Hres0 in Hres. injection Hres as <- _.
  injection Hres0 as <- _. reflexivity.
Defined.

(** ** Context updates *)


(** ** Worked examples *)

Example split_example :
  Py.split ("  two" +:+ Py.nl +:+ Py.nl +:+ "words ") = ["two"; "words"].
Proof. reflexivity. Qed.

Example lower_example : Py.lower "Point A, Point B" = "point a, point b".
Proof. reflexivity. Qed.

Example join_example : Py.join ", " ["a"; "b"; "c"] = "a, b, c".
Proof. reflexivity. Qed.

(** The planning scenario of the specification: two findings give four
    sections and 1600 words. *)
Example planning_two_findings (w : World) :
  outcome_map
    (λ o, (Section_.title <$> BlogOutline.sections o,
           BlogOutline.estimated_word_count o,
           BlogOutline.title o))
    (fst (ContentPlanningAgent.execute Sample.research w))
  = Returned (["Introduction"; "Point A"; "Point B"; "Conclusion"], 1600,
              "The Complete Guide to Employee Wellbeing: Strategies for 2024").
Proof. reflexivity. Qed.

Example meta_description_example :
  ContentPlanningAgent._generate_meta_description "Hiring" ["Point A"; "Point B"; "C"]
  = "Discover the latest insights and best practices for Hiring. Learn expert strategies for point a, point b and more in this comprehensive guide.".
Proof. reflexivity. Qed.

Example section_content_example :
  ContentGenerationAgent._generate_section_content
    (Spec.finding_section "Pay") Sample.research
  = "# Pay" +:+ Py.nl +:+ Py.nl
    +:+ "## Current Trends" +:+ Py.nl +:+ Py.nl
    +:+ "Content about current trends..." +:+ Py.nl +:+ Py.nl
    +:+ "## Best Practices" +:+ Py.nl +:+ Py.nl
    +:+ "Content about best practices..." +:+ Py.nl.
Proof. reflexivity. Qed.

(** A key that is not a field, when metadata is still [None], starts the
    map; a non-dict metadata makes the insertion a [TypeError]. *)
Example update_context_first_key :
  Spec.metadata_lookup
    (context (snd (BaseAgent.update_context [("note", VInt 1)] Sample.fresh_world)))
    "note"
  = Some (VInt 1).
Proof. reflexivity. Qed.

Example update_context_type_error (w : World) :
  fst (BaseAgent.update_context [("metadata", VInt 3); ("note", VInt 1)] w)
  = Raised TypeError.
Proof. reflexivity. Qed.

(** [get_context_value] reads a field before it looks into metadata. *)
Example get_context_value_field_first (w : World) :
  fst (BaseAgent.get_context_value "topic" w) = Returned (topic (context w)).
Proof. reflexivity. Qed.

Example get_context_value_missing :
  fst (BaseAgent.get_context_value "outline" Sample.fresh_world) = Returned VNone.
Proof. reflexivity. Qed.

(** * Further properties *)

(** ** Counting tokens *)

Lemma token_starts_app (s1 s2 : string) :
  ∀ b : bool,
    Spec.token_starts b (s1 +:+ s2)
    = (Spec.token_starts b s1
       + Spec.token_starts (Shape.ends_in_space b s1) s2)%nat.
Proof.
  induction s1 as [|c s1 IH]; intros b.
  - reflexivity.
  - change (String c s1 +:+ s2) with (String c (s1 +:+ s2)).
    cbn [Spec.token_starts Shape.ends_in_space]. rewrite IH. lia.
Qed.

Lemma token_starts_all_space (s : string) :
  Shape.all_space s = true → ∀ b : bool, Spec.token_starts b s = 0%nat.
Proof.
  induction s as [|c s IH]; intros Hs b; cbn in *; [stage; reflexivity|].
  apply andb_true_iff in Hs as [Hc Hs].
  rewrite Hc, andb_false_r, IH by done. reflexivity.
Qed.

Lemma ends_in_space_all_space (s : string) :
  Shape.all_space s = true → s ≠ "" →
  ∀ b : bool, Shape.ends_in_space b s = true.
Proof.
  induction s as [|c s IH]; intros Hs Hne b; [done|].
  cbn in *. apply andb_true_iff in Hs as [Hc Hs].
  destruct s as [|c' s']; [exact Hc|]. by apply IH.
Qed.

Lemma token_count_sep (sep rest : string) :
  Shape.all_space sep = true → sep ≠ "" →
  ∀ b : bool,
    Spec.token_starts b (sep +:+ rest) = Spec.whitespace_token_count rest.
Proof.
  intros Hsep Hne b.
  rewrite token_starts_app, token_starts_all_space by done.
  by rewrite ends_in_space_all_space.
Qed.

Lemma token_count_join (sep : string) (parts : list string) :
  Shape.all_space sep = true → sep ≠ "" →
  Spec.whitespace_token_count (Py.join sep parts) = Shape.total_tokens parts.
Proof.
  intros Hsep Hne. unfold Shape.total_tokens.
  induction parts as [|p rest IH]; [stage; reflexivity|].
  destruct rest as [|q rest].
  - cbn. unfold Spec.whitespace_token_count. lia.
  - change (Py.join sep (p :: q :: rest))
      with (p +:+ sep +:+ Py.join sep (q :: rest)).
    unfold Spec.whitespace_token_count at 1.
    rewrite token_starts_app, token_count_sep by done.
    rewrite IH. cbn. unfold Spec.whitespace_token_count. lia.
Qed.

Lemma token_count_append_space (s tail : string) :
  Shape.all_space tail = true →
  Spec.whitespace_token_count (s +:+ tail) = Spec.whitespace_token_count s.
Proof.
  intros Htail. unfold Spec.whitespace_token_count.
  rewrite token_starts_app, (token_starts_all_space tail) by done. lia.
Qed.

(** ** Word count of the generated content *)

Lemma generation_loop (research : ResearchResult.t) (sections : list Section_.t) :
  ∀ acc : list string,
    fold_left
      (λ content_sections section,
         let section_content :=
           ContentGenerationAgent._generate_section_content section research in
         content_sections ++ [section_content])
      sections acc
    = acc ++ ((λ section,
                 ContentGenerationAgent._generate_section_content section research)
              <$> sections).
Proof.
  induction sections as [|sec rest IH]; intros acc; cbn.
  - by rewrite app_nil_r.
  - rewrite IH. by rewrite <- app_assoc.
Qed.

Lemma nl_all_space : Shape.all_space Py.nl = true.
Proof. reflexivity. Qed.

Lemma finding_section_tokens (finding : string) (research : ResearchResult.t) :
  Spec.whitespace_token_count
    (ContentGenerationAgent._generate_section_content
       (Spec.finding_section finding) research)
  = (15 + Spec.whitespace_token_count finding)%nat.
Proof.
  change (ContentGenerationAgent._generate_section_content
            (Spec.finding_section finding) research)
    with (Py.join Py.nl
            [ "# " +:+ finding +:+ Py.nl;
              "## Current Trends" +:+ Py.nl;
              "Content about current trends..." +:+ Py.nl;
              "## Best Practices" +:+ Py.nl;
              "Content about best practices..." +:+ Py.nl ]).
  rewrite token_count_join by done.
  unfold Shape.total_tokens. cbn [sum_list_with].
  change (Spec.whitespace_token_count ("# " +:+ finding +:+ Py.nl))
    with (S (Spec.whitespace_token_count (finding +:+ Py.nl))).
  rewrite token_count_append_space by done.
  change (Spec.whitespace_token_count ("## Current Trends" +:+ Py.nl)) with 3%nat.
  change (Spec.whitespace_token_count ("Content about current trends..." +:+ Py.nl))
    with 4%nat.
  change (Spec.whitespace_token_count ("## Best Practices" +:+ Py.nl)) with 3%nat.
  change (Spec.whitespace_token_count ("Content about best practices..." +:+ Py.nl))
    with 4%nat.
  lia.
Qed.

Lemma total_tokens_app (l1 l2 : list string) :
  Shape.total_tokens (l1 ++ l2)
  = (Shape.total_tokens l1 + Shape.total_tokens l2)%nat.
Proof. unfold Shape.total_tokens. apply sum_list_with_app. Qed.

Lemma finding_sections_tokens (research : ResearchResult.t) (findings : list string) :
  Shape.total_tokens
    ((λ section, ContentGenerationAgent._generate_section_content section research)
     <$> map Spec.finding_section findings)
  = (15 * length findings + Shape.total_tokens findings)%nat.
Proof.
  unfold Shape.total_tokens.
  induction findings as [|f fs IH]; [stage; reflexivity|].
  cbn [map fmap list_fmap sum_list_with length].
  rewrite finding_section_tokens.
  cbn [map fmap list_fmap] in IH. rewrite IH. lia.
Qed.

(** X1.  For every outline, the draft's content is the section renderings
    joined by a blank line, and its word count is the sum of the token
    counts of the section renderings: joining adds no word and merges
    none. *)
Theorem draft_word_count_is_sum_over_sections
    (outline : BlogOutline.t) (research : ResearchResult.t) (w : World) :
  ∃ (draft : BlogPost.t) (w' : World),
    ContentGenerationAgent.execute outline research w = (Returned draft, w')
    ∧ BlogPost.content draft
      = Py.join (Py.nl +:+ Py.nl)
          ((λ section,
              ContentGenerationAgent._generate_section_content section research)
           <$> BlogOutline.sections outline)
    ∧ BlogPost.word_count draft
      = Z.of_nat
          (Shape.total_tokens
             ((λ section,
                 ContentGenerationAgent._generate_section_content section research)
              <$> BlogOutline.sections outline)).
Proof.
  eexists. eexists. split; [stage; reflexivity|].
  cbn [BlogPost.content BlogPost.word_count].
  rewrite generation_loop. cbn [app].
  split; [stage; reflexivity|].
  by rewrite split_length, token_count_join.
Qed.

(** X2.  Planning followed by Generation: for a research result with N key
    findings the draft has 52 + 15*N words plus the words of the findings
    themselves (23 for the Introduction, 29 for the Conclusion, and for each
    finding its heading and the two fixed subsections). *)
Theorem planned_draft_word_count (research : ResearchResult.t) (w : World) :
  ∃ (outline : BlogOutline.t) (w1 : World) (draft : BlogPost.t) (w2 : World),
    ContentPlanningAgent.execute research w = (Returned outline, w1)
    ∧ ContentGenerationAgent.execute outline research w1 = (Returned draft, w2)
    ∧ BlogPost.word_count draft
      = 52 + 15 * Z.of_nat (length (ResearchResult.key_findings research))
        + Z.of_nat (Shape.total_tokens (ResearchResult.key_findings research)).
Proof.
  eexists. eexists. eexists. eexists.
  split; [stage; reflexivity|]. split; [stage; reflexivity|].
  cbn [BlogPost.word_count BlogOutline.sections].
  rewrite generation_loop. cbn [app].
  rewrite split_length, token_count_join by done.
  rewrite create_sections_shape.
  rewrite fmap_cons, fmap_app.
  change (Shape.total_tokens (?x :: ?l))
    with (Spec.whitespace_token_count x + Shape.total_tokens l)%nat.
  rewrite total_tokens_app, finding_sections_tokens.
  change (Spec.whitespace_token_count
            (ContentGenerationAgent._generate_section_content
               Spec.introduction research)) with 23%nat.
  change (Shape.total_tokens
            ((λ section,
                ContentGenerationAgent._generate_section_content section research)
             <$> [Spec.conclusion])) with 29%nat.
  lia.
Qed.

(** ** Writing and reading the context *)

Lemma hasattr_cases (key : string) :
  BaseAgent.hasattr key = true →
  key = "topic" ∨ key = "keywords" ∨ key = "target_word_count"
  ∨ key = "timestamp" ∨ key = "metadata".
Proof.
  unfold BaseAgent.hasattr. intros H%bool_decide_eq_true.
  repeat (apply elem_of_cons in H as [->|H]; [tauto|]).
  by apply elem_of_nil in H.
Qed.








Lemma get_context_value_dict (key : string) (w : World) (d : gmap string Value) :
  BaseAgent.hasattr key = false →
  metadata (context w) = VDict d →
  BaseAgent.get_context_value key w = (Returned (default VNone (d !! key)), w).
Proof.
  intros Hkey Hmeta. unfold BaseAgent.get_context_value, bind.
  cbn [get_context]. rewrite Hkey, Hmeta. cbn [BaseAgent.is_truthy].
  case_bool_decide as Hd; cbn [negb]; [|reflexivity].
  subst d. by rewrite lookup_empty.
Qed.





(** X7.  A value stored under one of the five field names is read back by
    [get_context_value] under that name, and the other four fields are as
    before. *)
Theorem field_round_trip
    (key : string) (value : Value) (w : World)
    (Hkey : BaseAgent.hasattr key = true) :
  ∃ w' : World,
    BaseAgent.update_context [(key, value)] w = (Returned tt, w')
    ∧ BaseAgent.get_context_value key w' = (Returned value, w')
    ∧ ∀ other : string,
        BaseAgent.hasattr other = true → other ≠ key →
        BaseAgent.getattr (context w') other = BaseAgent.getattr (context w) other.
Proof.
  eexists. split.
  { cbn [BaseAgent.update_context]. unfold bind at 1.
    unfold BaseAgent.update_one, bind. cbn [get_context]. rewrite Hkey.
    reflexivity. }
  split.
  { unfold BaseAgent.get_context_value, bind. cbn [get_context]. rewrite Hkey.
    cbn [context put_context ret].
    destruct (hasattr_cases key Hkey) as [->|[->|[->|[->| ->]]]]; reflexivity. }
  intros other Hother Hne. cbn [context put_context].
  destruct (hasattr_cases key Hkey) as [->|[->|[->|[->| ->]]]];
    destruct (hasattr_cases other Hother) as [->|[->|[->|[->| ->]]]];
    done.
Qed.

Lemma field_round_trip_witness :
  ∃ w' : World,
    BaseAgent.update_context [("target_word_count", VInt 900)] Sample.fresh_world
    = (Returned tt, w')
    ∧ BaseAgent.get_context_value "target_word_count" w'
      = (Returned (VInt 900), w').
Proof.
  destruct (field_round_trip "target_word_count" (VInt 900) Sample.fresh_world
              eq_refl) as (w' & Hput & Hget & _).
  by exists w'.
Defined.

(** X8.  Reading a key that is neither a field nor present in metadata,
    and whose name does not start with two underscores, gives [None],
    whether metadata is [None], an empty dict, or a dict without the key;
    reading never changes the context. *)
Theorem get_context_value_missing_key
    (key : string) (w : World)
    (Hplain : Shape.plain_key key = true)
    (Hkey : BaseAgent.hasattr key = false)
    (Hmeta : Shape.dict_or_none (metadata (context w)) = true)
    (Hmissing : Spec.metadata_lookup (context w) key = None) :
  BaseAgent.get_context_value key w = (Returned VNone, w).
Proof.
  unfold Spec.metadata_lookup in Hmissing.
  destruct (metadata (context w)) as [| | | | | |d| | |] eqn:Hm; try discriminate.
  - unfold BaseAgent.get_context_value, bind. cbn [get_context].
    by rewrite Hkey, Hm.
  - by rewrite (get_context_value_dict key w d Hkey Hm), Hmissing.
Qed.

Lemma get_context_value_missing_key_witness :
  BaseAgent.get_context_value "outline" Sample.fresh_world
  = (Returned VNone, Sample.fresh_world).
Proof.
  apply (get_context_value_missing_key "outline" Sample.fresh_world);
    reflexivity.
Defined.

(** X9.  Reading a key that is not a field, and whose name does not start
    with two underscores, from a metadata that is truthy but not a dict
    raises [AttributeError]. *)
Theorem get_context_value_attribute_error
    (key : string) (w : World)
    (Hplain : Shape.plain_key key = true)
    (Hkey : BaseAgent.hasattr key = false)
    (Hmeta : Shape.dict_or_none (metadata (context w)) = false)
    (Htruthy : BaseAgent.is_truthy (metadata (context w)) = true) :
  BaseAgent.get_context_value key w = (Raised AttributeError, w).
Proof.
  unfold BaseAgent.get_context_value, bind. cbn [get_context].
  rewrite Hkey, Htruthy.
  by destruct (metadata (context w)).
Qed.

Lemma get_context_value_attribute_error_witness :
  ∃ w1 : World,
    BaseAgent.update_context [("metadata", VStr "notes")] Sample.fresh_world
    = (Returned tt, w1)
    ∧ BaseAgent.get_context_value "outline" w1 = (Raised AttributeError, w1).
Proof.
  eexists. split; [stage; reflexivity|].
  apply get_context_value_attribute_error; reflexivity.
Defined.

(** ** The whole run *)

Lemma max_by_none {A : Type} (key : A → Q) (items : list A) :
  Py.max_by key items = None → items = [].
Proof. by destruct items. Qed.

(** What a returning Research stage has done. *)
Lemma research_execute_returned
    (P : ResearchAgent.Provider) (query : option string) (w w1 : World)
    (research : ResearchResult.t) :
  ResearchAgent.execute P query w = (Returned research, w1) →
  let selected := ResearchResult.selected_topic research in
  research
  = ResearchResult.mk
      (Gathered.related_topics (ResearchAgent.gather P selected)) selected
      (Gathered.key_points (ResearchAgent.gather P selected))
      (Gathered.sources (ResearchAgent.gather P selected))
      (Gathered.keywords (ResearchAgent.gather P selected))
  ∧ wall_clock w1 = (λ n, wall_clock w (S (S n)))
  ∧ keywords (context w1) = VStrs (ResearchResult.keywords research)
  ∧ target_word_count (context w1) = target_word_count (context w)
  ∧ timestamp (context w1) = timestamp (context w)
  ∧ (Py.truthy query = true ∧ query = Some selected
     ∧ topic (context w1) = topic (context w)
     ∨ Py.truthy query = false
       ∧ (∃ t, Py.max_by TrendingTopic.relevance_score (ResearchAgent.candidates P)
               = Some t
               ∧ selected = TrendingTopic.title t)
       ∧ topic (context w1) = VStr selected).
Proof.
  unfold ResearchAgent.execute, ResearchAgent._find_trending_topics.
  destruct (Py.truthy query) eqn:Hq; cbn [negb].
  - destruct query as [q|]; [|discriminate].
    intros [= <- <-]. cbn. repeat split. by left.
  - destruct (Py.max_by _ _) as [t|] eqn:Hmax; [|discriminate].
    intros [= <- <-]. cbn. repeat split. right. repeat split. by exists t.
Qed.

(** A Research stage that raises has written nothing. *)
Lemma research_execute_raised
    (P : ResearchAgent.Provider) (query : option string) (w w1 : World) (e : Exn) :
  ResearchAgent.execute P query w = (Raised e, w1) →
  e = ValueError ∧ w1 = snd (now w) ∧ Py.truthy query = false
  ∧ ResearchAgent.candidates P = [].
Proof.
  unfold ResearchAgent.execute, ResearchAgent._find_trending_topics.
  destruct (Py.truthy query) eqn:Hq; cbn [negb].
  - discriminate.
  - destruct (Py.max_by _ _) as [t|] eqn:Hmax; [discriminate|].
    intros [= <- <-]. repeat split. by eapply max_by_none.
Qed.

(** What the stages after Research do, and the result they assemble. *)
Lemma generate_after_research_full
    (P : ResearchAgent.Provider) (query : option string) (w w1 : World)
    (research : ResearchResult.t) :
  ResearchAgent.execute P query (snd (now w)) = (Returned research, w1) →
  ∃ (outline : BlogOutline.t) (draft : BlogPost.t) (post : SEOOptimizedPost.t)
    (result : BlogGenerationResult.t) (w2 w3 w_end : World),
    ContentPlanningAgent.execute research w1 = (Returned outline, w2)
    ∧ ContentGenerationAgent.execute outline research w2 = (Returned draft, w3)
    ∧ BlogGenerationOrchestrator.generate_blog_post P query w
      = (Returned result, w_end)
    ∧ result
      = BlogGenerationResult.mk
          (SEOOptimizedPost.title post) (SEOOptimizedPost.meta_description post)
          (SEOOptimizedPost.content post) (SEOOptimizedPost.word_count post)
          (SEOOptimizedPost.keywords post) (SEOOptimizedPost.sources post)
          (SEOOptimizedPost.keyword_density post)
          (SEOOptimizedPost.readability_score post)
          (BlogGenerationOrchestrator.total_seconds
             (wall_clock w 0%nat) (wall_clock w1 6%nat))
    ∧ post
      = SEOOptimizedPost.mk
          (BlogPost.title draft) (BlogPost.meta_description draft)
          (BlogPost.content draft)
          (Z.of_nat (length (Py.split (BlogPost.content draft))))
          (BlogPost.keywords draft) (BlogPost.sources draft)
          (SEOOptimizationAgent._calculate_keyword_density
             (BlogPost.content draft) (BlogPost.keywords draft))
          75%Q
    ∧ context w_end
      = mkContext (topic (context w1)) (keywords (context w1))
          (target_word_count (context w1)) (timestamp (context w1))
          (VDict {[ "optimized_post" := VSEOPost post;
                    "keyword_density"
                      := VDict (VFloat <$> SEOOptimizedPost.keyword_density post);
                    "readability_score"
                      := VFloat (SEOOptimizedPost.readability_score post) ]}).
Proof.
  intros Hres.
  unfold BlogGenerationOrchestrator.generate_blog_post.
  unfold bind at 1. cbn [now]. cbn [now snd] in Hres.
  unfold bind at 1. rewrite Hres.
  eexists. eexists. eexists. eexists. eexists. eexists. eexists.
  split; [stage; reflexivity|]. split; [stage; reflexivity|]. split; [stage; reflexivity|].
  split; [stage; reflexivity|]. split; stage; reflexivity.
Qed.

(** A failure of the Research stage is the failure of the run. *)
Lemma generate_when_research_raises
    (P : ResearchAgent.Provider) (query : option string) (w w1 : World) (e : Exn) :
  ResearchAgent.execute P query (snd (now w)) = (Raised e, w1) →
  BlogGenerationOrchestrator.generate_blog_post P query w = (Raised e, w1).
Proof.
  intros Hres.
  unfold BlogGenerationOrchestrator.generate_blog_post.
  unfold bind at 1. cbn [now]. cbn [now snd] in Hres.
  unfold bind at 1. by rewrite Hres.
Qed.

(** X10.  [generate_blog_post] fails in exactly one situation: the topic
    is absent and there is no candidate topic.  It then raises [ValueError]
    before anything was written to the context.  In every other situation
    it returns a result. *)
Theorem generate_blog_post_fails_only_without_candidates
    (P : ResearchAgent.Provider) (query : option string) (w : World) :
  (Py.truthy query = false ∧ ResearchAgent.candidates P = []
   ∧ ∃ w' : World,
       BlogGenerationOrchestrator.generate_blog_post P query w
       = (Raised ValueError, w')
       ∧ context w' = context w)
  ∨ ((Py.truthy query = true ∨ ResearchAgent.candidates P ≠ [])
     ∧ ∃ (result : BlogGenerationResult.t) (w' : World),
         BlogGenerationOrchestrator.generate_blog_post P query w
         = (Returned result, w')).
Proof.
  destruct (ResearchAgent.execute P query (snd (now w)))
    as [[research|e] w1] eqn:Hres.
  - right.
    split.
    + destruct (research_execute_returned P query _ _ _ Hres)
        as (_ & _ & _ & _ & _ & [[Hq _]|[_ [[t [Hmax _]] _]]]); [by left|].
      right. intros Hnil. rewrite Hnil in Hmax. discriminate.
    + destruct (generate_after_research P query w w1 research Hres)
        as (outline & w2 & result & w_end & _ & Hrun & _).
      by exists result, w_end.
  - left.
    destruct (research_execute_raised P query _ _ _ Hres) as (-> & Hw1 & Hq & Hnil).
    split; [exact Hq|]. split; [exact Hnil|].
    exists w1.
    rewrite (generate_when_research_raises P query w _ _ Hres).
    split; [reflexivity|]. by rewrite Hw1.
Qed.

(** X11.  No run of [generate_blog_post], returning or failing, changes
    the [target_word_count] or the [timestamp] of the context. *)
Theorem generate_blog_post_keeps_target_and_timestamp
    (P : ResearchAgent.Provider) (query : option string) (w : World) :
  target_word_count
    (context (snd (BlogGenerationOrchestrator.generate_blog_post P query w)))
  = target_word_count (context w)
  ∧ timestamp
      (context (snd (BlogGenerationOrchestrator.generate_blog_post P query w)))
    = timestamp (context w).
Proof.
  destruct (ResearchAgent.execute P query (snd (now w)))
    as [[research|e] w1] eqn:Hres.
  - destruct (generate_after_research_full P query w w1 research Hres)
      as (outline & draft & post & result & w2 & w3 & w_end
          & _ & _ & Hrun & _ & _ & Hctx).
    destruct (research_execute_returned P query _ _ _ Hres)
      as (_ & _ & _ & Htarget & Hstamp & _).
    rewrite Hrun. cbn [snd]. rewrite Hctx. cbn [target_word_count timestamp].
    by rewrite Htarget, Hstamp.
  - rewrite (generate_when_research_raises P query w _ _ Hres).
    by destruct (research_execute_raised P query _ _ _ Hres) as (_ & -> & _ & _).
Qed.

Lemma generate_returned_inv
    (P : ResearchAgent.Provider) (query : option string) (w w' : World)
    (result : BlogGenerationResult.t) :
  BlogGenerationOrchestrator.generate_blog_post P query w = (Returned result, w') →
  ∃ (research : ResearchResult.t) (w1 : World),
    ResearchAgent.execute P query (snd (now w)) = (Returned research, w1).
Proof.
  intros Hrun.
  destruct (ResearchAgent.execute P query (snd (now w)))
    as [[research|e] w1] eqn:Hres; [by exists research, w1|].
  rewrite (generate_when_research_raises P query w _ _ Hres) in Hrun.
  discriminate.
Qed.

Lemma planned_content_tokens (research : ResearchResult.t) (topic : string)
    (findings : list string) :
  Shape.total_tokens
    ((λ section, ContentGenerationAgent._generate_section_content section research)
     <$> ContentPlanningAgent._create_sections topic findings)
  = (52 + 15 * length findings + Shape.total_tokens findings)%nat.
Proof.
  rewrite create_sections_shape, fmap_cons, fmap_app.
  change (Shape.total_tokens (?x :: ?l))
    with (Spec.whitespace_token_count x + Shape.total_tokens l)%nat.
  rewrite total_tokens_app, finding_sections_tokens.
  change (Spec.whitespace_token_count
            (ContentGenerationAgent._generate_section_content
               Spec.introduction research)) with 23%nat.
  change (Shape.total_tokens
            ((λ section,
                ContentGenerationAgent._generate_section_content section research)
             <$> [Spec.conclusion])) with 29%nat.
  lia.
Qed.

(** X12.  The result of a returning run, in terms of what the provider
    delivered for the selected topic: the title and the meta-description are
    the templates filled with that topic, keywords and sources are the
    gathered ones, the density map has exactly the gathered keywords as keys,
    readability is 75, and the word count is the token count of the content,
    52 + 15*N plus the words of the N findings.  The selected topic is the
    topic given, or, when none was given, the title of the first candidate
    of maximal score. *)
Theorem generate_blog_post_result
    (P : ResearchAgent.Provider) (query : option string) (w w' : World)
    (result : BlogGenerationResult.t)
    (Hrun : BlogGenerationOrchestrator.generate_blog_post P query w
            = (Returned result, w')) :
  ∃ selected : string,
    (Py.truthy query = true ∧ query = Some selected
     ∨ Py.truthy query = false
       ∧ ∃ (i : nat) (t : TrendingTopic.t),
           Spec.first_maximum TrendingTopic.relevance_score
             (ResearchAgent.candidates P) i t
           ∧ selected = TrendingTopic.title t)
    ∧ BlogGenerationResult.title result
      = ContentPlanningAgent._generate_title selected
    ∧ BlogGenerationResult.meta_description result
      = ContentPlanningAgent._generate_meta_description selected
          (Gathered.key_points (ResearchAgent.gather P selected))
    ∧ BlogGenerationResult.keywords result
      = Gathered.keywords (ResearchAgent.gather P selected)
    ∧ BlogGenerationResult.sources result
      = Gathered.sources (ResearchAgent.gather P selected)
    ∧ dom (BlogGenerationResult.keyword_density result)
      = list_to_set (Gathered.keywords (ResearchAgent.gather P selected))
    ∧ BlogGenerationResult.readability_score result = 75%Q
    ∧ BlogGenerationResult.word_count result
      = Z.of_nat
          (Spec.whitespace_token_count (BlogGenerationResult.content result))
    ∧ BlogGenerationResult.word_count result
      = 52
        + 15 * Z.of_nat
                 (length (Gathered.key_points (ResearchAgent.gather P selected)))
        + Z.of_nat
            (Shape.total_tokens
               (Gathered.key_points (ResearchAgent.gather P selected))).
Proof.
  destruct (generate_returned_inv P query w w' result Hrun)
    as (research & w1 & Hres).
  destruct (generate_after_research_full P query w w1 research Hres)
    as (outline & draft & post & result' & w2 & w3 & w_end
        & Hplan & Hgen & Hrun' & Hresult & Hpost & _).
  rewrite Hrun in Hrun'. injection Hrun' as <- <-.
  destruct (research_execute_returned P query _ _ _ Hres)
    as (Hresearch & _ & _ & _ & _ & Hsel).
  cbv zeta in Hresearch.
  set (selected := ResearchResult.selected_topic research) in *.
  exists selected. split.
  { destruct Hsel as [(Hq & Hsome & _)|(Hq & (t & Hmax & Ht) & _)];
      [by left | right].
    split; [exact Hq|].
    destruct (max_by_first_maximum TrendingTopic.relevance_score
                (ResearchAgent.candidates P)) as (i & t' & Hmax' & Hfirst).
    { intros Hnil. rewrite Hnil in Hmax. discriminate. }
    rewrite Hmax in Hmax'. injection Hmax' as <-. by exists i, t. }
  injection Hgen as <- _. injection Hplan as <- _.
  subst result post.
  cbn [BlogGenerationResult.title BlogGenerationResult.meta_description
       BlogGenerationResult.content BlogGenerationResult.word_count
       BlogGenerationResult.keywords BlogGenerationResult.sources
       BlogGenerationResult.keyword_density BlogGenerationResult.readability_score
       SEOOptimizedPost.title SEOOptimizedPost.meta_description
       SEOOptimizedPost.content SEOOptimizedPost.word_count
       SEOOptimizedPost.keywords SEOOptimizedPost.sources
       SEOOptimizedPost.keyword_density SEOOptimizedPost.readability_score
       BlogPost.title BlogPost.meta_description BlogPost.content
       BlogPost.word_count BlogPost.keywords BlogPost.sources
       BlogOutline.title BlogOutline.meta_description BlogOutline.sections
       BlogOutline.target_keywords].
  rewrite Hresearch.
  cbn [ResearchResult.selected_topic ResearchResult.key_findings
       ResearchResult.sources ResearchResult.keywords].
  split; [stage; reflexivity|]. split; [stage; reflexivity|].
  split; [stage; reflexivity|]. split; [stage; reflexivity|].
  split; [apply keyword_density_dom|]. split; [stage; reflexivity|].
  unfold SEOOptimizationAgent._optimize_content.
  rewrite generation_loop. cbn [app].
  rewrite !split_length, token_count_join by done.
  split; [stage; reflexivity|].
  rewrite planned_content_tokens. lia.
Qed.

Lemma generate_blog_post_result_witness :
  ∃ (result : BlogGenerationResult.t) (w' : World),
    BlogGenerationOrchestrator.generate_blog_post ResearchAgent.placeholder None
      Sample.fresh_world
    = (Returned result, w')
    ∧ BlogGenerationResult.title result
      = "The Complete Guide to Remote Work Best Practices 2024: Strategies for 2024"
    ∧ BlogGenerationResult.word_count result = 151.
Proof.
  destruct (ResearchAgent.execute ResearchAgent.placeholder None
              (snd (now Sample.fresh_world))) as [[research|e] w1] eqn:Hres;
    [|discriminate Hres].
  destruct (generate_after_research ResearchAgent.placeholder None
              Sample.fresh_world w1 research Hres)
    as (outline & w2 & result & w' & _ & Hrun & _).
  exists result, w'. split; [exact Hrun|].
  destruct (generate_blog_post_result ResearchAgent.placeholder None
              Sample.fresh_world w' result Hrun)
    as (selected & Hsel & Htitle & _ & _ & _ & _ & _ & _ & Hcount).
  destruct Hsel as [[Hq _]|(_ & i & t & Hfirst & ->)]; [discriminate Hq|].
  assert (Ht : TrendingTopic.title t = "Remote Work Best Practices 2024").
  { destruct Hfirst as (Hi & _ & Hbefore).
    destruct i as [|[|[|i]]]; try discriminate Hi.
    - by injection Hi as <-.
    - injection Hi as <-.
      by specialize (Hbefore 0%nat _ ltac:(lia) eq_refl).
    - injection Hi as <-.
      by specialize (Hbefore 0%nat _ ltac:(lia) eq_refl). }
  rewrite Ht in Htitle, Hcount. split; [exact Htitle | exact Hcount].
Defined.

(** X13.  After a returning run the context holds the result's keywords in
    [keywords], and its metadata is exactly the three entries written by the
    Optimization stage, whose post has the fields of the result; the status
    snapshot has exactly the four keys and reports those keywords and that
    metadata. *)
Theorem context_after_returning_run
    (P : ResearchAgent.Provider) (query : option string) (w w' : World)
    (result : BlogGenerationResult.t)
    (Hrun : BlogGenerationOrchestrator.generate_blog_post P query w
            = (Returned result, w')) :
  ∃ (post : SEOOptimizedPost.t) (status : gmap string Value),
    keywords (context w') = VStrs (BlogGenerationResult.keywords result)
    ∧ metadata (context w')
      = VDict {[ "optimized_post" := VSEOPost post;
                 "keyword_density"
                   := VDict (VFloat <$> BlogGenerationResult.keyword_density result);
                 "readability_score"
                   := VFloat (BlogGenerationResult.readability_score result) ]}
    ∧ SEOOptimizedPost.title post = BlogGenerationResult.title result
    ∧ SEOOptimizedPost.content post = BlogGenerationResult.content result
    ∧ SEOOptimizedPost.word_count post = BlogGenerationResult.word_count result
    ∧ SEOOptimizedPost.sources post = BlogGenerationResult.sources result
    ∧ BlogGenerationOrchestrator.get_generation_status w' = (Returned status, w')
    ∧ dom status
      = {[ "topic"; "keywords"; "target_word_count"; "metadata" ]}
    ∧ status !! "keywords" = Some (VStrs (BlogGenerationResult.keywords result))
    ∧ status !! "metadata" = Some (metadata (context w')).
Proof.
  destruct (generate_returned_inv P query w w' result Hrun)
    as (research & w1 & Hres).
  destruct (generate_after_research_full P query w w1 research Hres)
    as (outline & draft & post & result' & w2 & w3 & w_end
        & Hplan & Hgen & Hrun' & Hresult & Hpost & Hctx).
  rewrite Hrun in Hrun'. injection Hrun' as <- <-.
  destruct (research_execute_returned P query _ _ _ Hres)
    as (_ & _ & Hkw & _ & _ & _).
  exists post,
    ({[ "topic" := topic (context w');
        "keywords" := keywords (context w');
        "target_word_count" := target_word_count (context w');
        "metadata" := metadata (context w') ]} : gmap string Value).
  assert (Hkeywords : BlogGenerationResult.keywords result
                      = ResearchResult.keywords research).
  { rewrite Hresult, Hpost.
    injection Hgen as <- _. injection Hplan as <- _. reflexivity. }
  split; [rewrite Hctx; cbn [keywords]; by rewrite Hkw, Hkeywords|].
  split; [rewrite Hctx, Hresult; reflexivity|].
  rewrite Hresult.
  do 5 (split; [stage; reflexivity|]).
  split; [stage; reflexivity|].
  split; [|reflexivity].
  transitivity (Some (keywords (context w'))); [stage; reflexivity|]. f_equal.
  rewrite Hctx. cbn [keywords]. rewrite Hkw, <- Hkeywords, Hresult. reflexivity.
Qed.

Lemma context_after_returning_run_witness :
  ∃ (result : BlogGenerationResult.t) (w' : World),
    BlogGenerationOrchestrator.generate_blog_post ResearchAgent.placeholder
      (Some "Hiring") Sample.fresh_world
    = (Returned result, w')
    ∧ keywords (context w') = VStrs (BlogGenerationResult.keywords result)
    ∧ Spec.metadata_lookup (context w') "readability_score"
      = Some (VFloat (BlogGenerationResult.readability_score result))
    ∧ Spec.metadata_lookup (context w') "outline" = None.
Proof.
  destruct (ResearchAgent.execute ResearchAgent.placeholder (Some "Hiring")
              (snd (now Sample.fresh_world))) as [[research|e] w1] eqn:Hres;
    [|discriminate Hres].
  destruct (generate_after_research ResearchAgent.placeholder (Some "Hiring")
              Sample.fresh_world w1 research Hres)
    as (outline & w2 & result & w' & _ & Hrun & _).
  exists result, w'. split; [exact Hrun|].
  destruct (context_after_returning_run ResearchAgent.placeholder (Some "Hiring")
              Sample.fresh_world w' result Hrun)
    as (post & status & Hkw & Hmeta & _).
  split; [exact Hkw|].
  unfold Spec.metadata_lookup. rewrite Hmeta. split; stage; reflexivity.
Defined.

(** X14.  The status topic goes stale: after a run without a topic, which
    writes the selected candidate into the context, a second run on the same
    orchestrator with an explicit topic returns a post titled after the
    explicit topic while the status snapshot still reports the candidate of
    the first run. *)
Theorem status_topic_stale_after_explicit_run
    (P : ResearchAgent.Provider) (first : option string) (second : string)
    (w : World)
    (Hfirst : Py.truthy first = false)
    (Hcandidates : ResearchAgent.candidates P ≠ [])
    (Hsecond : second ≠ "") :
  ∃ (i : nat) (t : TrendingTopic.t) (r1 r2 : BlogGenerationResult.t)
    (w1 w2 : World) (status : gmap string Value),
    Spec.first_maximum TrendingTopic.relevance_score
      (ResearchAgent.candidates P) i t
    ∧ BlogGenerationOrchestrator.generate_blog_post P first w = (Returned r1, w1)
    ∧ BlogGenerationOrchestrator.generate_blog_post P (Some second) w1
      = (Returned r2, w2)
    ∧ BlogGenerationResult.title r2
      = ContentPlanningAgent._generate_title second
    ∧ BlogGenerationOrchestrator.get_generation_status w2 = (Returned status, w2)
    ∧ status !! "topic" = Some (VStr (TrendingTopic.title t)).
Proof.
  destruct (max_by_first_maximum TrendingTopic.relevance_score _ Hcandidates)
    as (i & t & Hmax & Hmaximum).
  destruct (research_execute_absent P first t (snd (now w)) Hfirst Hmax)
    as (research1 & wa & Hres1 & _ & _ & Htopic1).
  destruct (generate_after_research_full P first w wa research1 Hres1)
    as (o1 & d1 & p1 & r1 & wb & wc & w1 & _ & _ & Hrun1 & _ & _ & Hctx1).
  destruct (ResearchAgent.execute P (Some second) (snd (now w1)))
    as [[research2|e] wd] eqn:Hres2.
  2: { apply research_execute_raised in Hres2 as (_ & _ & Hq & _).
       by rewrite truthy_nonempty in Hq. }
  destruct (research_execute_returned P _ _ _ _ Hres2)
    as (_ & _ & _ & _ & _ & [(_ & Hsel & Htopic2)|(Hq & _)]).
  2: { by rewrite truthy_nonempty in Hq. }
  destruct (generate_after_research_full P (Some second) w1 wd research2 Hres2)
    as (o2 & d2 & p2 & r2 & we & wf & w2 & Hplan2 & Hgen2 & Hrun2 & Hr2 & Hp2 & Hctx2).
  exists i, t, r1, r2, w1, w2. eexists.
  split; [exact Hmaximum|]. split; [exact Hrun1|]. split; [exact Hrun2|].
  split.
  { rewrite Hr2, Hp2. injection Hgen2 as <- _. injection Hplan2 as <- _.
    injection Hsel as ->. reflexivity. }
  split; [stage; reflexivity|].
  transitivity (Some (topic (context w2))); [stage; reflexivity|]. f_equal.
  rewrite Hctx2. cbn [topic]. rewrite Htopic2. cbn [now snd context].
  rewrite Hctx1. cbn [topic]. exact Htopic1.
Qed.

Lemma status_topic_stale_after_explicit_run_witness :
  ∃ (r2 : BlogGenerationResult.t) (w1 w2 : World) (status : gmap string Value),
    w1 = snd (BlogGenerationOrchestrator.generate_blog_post
                Sample.two_candidates None Sample.fresh_world)
    ∧ BlogGenerationOrchestrator.generate_blog_post Sample.two_candidates
        (Some "Pay") w1
      = (Returned r2, w2)
    ∧ BlogGenerationResult.title r2
      = "The Complete Guide to Pay: Strategies for 2024"
    ∧ BlogGenerationOrchestrator.get_generation_status w2 = (Returned status, w2)
    ∧ status !! "topic" = Some (VStr "Remote Work").
Proof.
  destruct (status_topic_stale_after_explicit_run Sample.two_candidates None
              "Pay" Sample.fresh_world eq_refl ltac:(discriminate)
              ltac:(discriminate))
    as (i & t & r1 & r2 & w1 & w2 & status
        & Hmaximum & Hrun1 & Hrun2 & Htitle & Hstatus & Htopic).
  exists r2, w1, w2, status.
  split; [by rewrite Hrun1|]. split; [exact Hrun2|]. split; [exact Htitle|].
  split; [exact Hstatus|].
  assert (Ht : TrendingTopic.title t = "Remote Work").
  { destruct Hmaximum as (Hi & _ & Hbefore).
    destruct i as [|[|i]]; try discriminate Hi.
    - by injection Hi as <-.
    - injection Hi as <-.
      by specialize (Hbefore 0%nat _ ltac:(lia) eq_refl). }
  by rewrite Ht in Htopic.
Defined.



(** ** Sections *)

(** X16.  [_calculate_word_count] of no section is 0, of one section is its
    own budget plus its subsections' budgets (an absent budget or an absent
    subsection list counting for nothing), and of two lists of sections put
    together is the sum of the two counts. *)
Theorem calculate_word_count_additive :
  ContentPlanningAgent._calculate_word_count [] = 0
  ∧ (∀ sec : Section_.t,
       ContentPlanningAgent._calculate_word_count [sec]
       = default 0 (Section_.target_word_count sec)
         + Spec.sum_Z (Spec.subsection_budget
                       <$> default [] (Section_.subsections sec)))
  ∧ (∀ title type : string,
       ContentPlanningAgent._calculate_word_count
         [Section_.mk title type None None None] = 0)
  ∧ (∀ l1 l2 : list Section_.t,
       ContentPlanningAgent._calculate_word_count (l1 ++ l2)
       = ContentPlanningAgent._calculate_word_count l1
         + ContentPlanningAgent._calculate_word_count l2).
Proof.
  split; [stage; reflexivity|]. split.
  { intros sec. rewrite calculate_word_count_sum. cbn.
    unfold Spec.section_budget. lia. }
  split; [stage; reflexivity|].
  intros l1 l2. rewrite !calculate_word_count_sum, fmap_app. apply sum_Z_app.
Qed.

(** X17.  Every section that [_create_sections] builds is of type
    "section" and has exactly one body: key points and no subsections, or
    subsections of type "subsection" and no key points.  The first section
    is the Introduction, the last the Conclusion, and the topic has no
    influence on the outline's sections. *)
Theorem create_sections_one_body_each (topic : string) (key_points : list string) :
  Forall Shape.one_body (ContentPlanningAgent._create_sections topic key_points)
  ∧ head (ContentPlanningAgent._create_sections topic key_points)
    = Some Spec.introduction
  ∧ last (ContentPlanningAgent._create_sections topic key_points)
    = Some Spec.conclusion
  ∧ ∀ other : string,
      ContentPlanningAgent._create_sections other key_points
      = ContentPlanningAgent._create_sections topic key_points.
Proof.
  rewrite create_sections_shape. split.
  { apply Forall_cons. split.
    - split; [stage; reflexivity|]. left. by eexists.
    - apply Forall_app. split.
      + change (map Spec.finding_section) with (fmap (M:=list) Spec.finding_section).
        apply Forall_forall. intros sec [finding [-> _]]%list_elem_of_fmap.
        split; [stage; reflexivity|]. right. eexists. repeat split; [done|].
        by repeat constructor.
      + apply Forall_singleton. split; [stage; reflexivity|]. left. by eexists. }
  split; [stage; reflexivity|]. split.
  { change (Spec.introduction :: map Spec.finding_section key_points ++ [Spec.conclusion])
      with ((Spec.introduction :: map Spec.finding_section key_points)
            ++ [Spec.conclusion]).
    apply last_snoc. }
  intros other. by rewrite create_sections_shape.
Qed.

Lemma render_loop {A : Type} (heading body : A → string) (items : list A) :
  ∀ acc : list string,
    fold_left (λ content_parts item,
                 (content_parts ++ [heading item]) ++ [body item])
      items acc
    = acc ++ flat_map (λ item, [heading item; body item]) items.
Proof.
  induction items as [|x xs IH]; intros acc; cbn [fold_left flat_map].
  - by rewrite app_nil_r.
  - rewrite IH, <- !app_assoc. reflexivity.
Qed.

(** X18.  The rendering of a section is its heading line followed by two
    lines for each key point and then two lines for each subsection, joined
    by newlines: a section that has both bodies gets both rendered, key
    points first, and a section with neither (absent or empty) is rendered
    as its heading alone.  The research data has no influence. *)
Theorem section_content_lines
    (section : Section_.t) (research : ResearchResult.t) :
  ContentGenerationAgent._generate_section_content section research
  = Py.join Py.nl
      (("# " +:+ Section_.title section +:+ Py.nl)
       :: flat_map
            (λ point, [ "## " +:+ point +:+ Py.nl;
                        "Content about " +:+ Py.lower point +:+ "..." +:+ Py.nl ])
            (default [] (Section_.key_points section))
       ++ flat_map
            (λ sub, [ "## " +:+ Subsection.title sub +:+ Py.nl;
                      "Content about " +:+ Py.lower (Subsection.title sub)
                      +:+ "..." +:+ Py.nl ])
            (default [] (Section_.subsections section)))
  ∧ (Py.truthy_list (Section_.key_points section) = false →
     Py.truthy_list (Section_.subsections section) = false →
     ContentGenerationAgent._generate_section_content section research
     = "# " +:+ Section_.title section +:+ Py.nl)
  ∧ ∀ other : ResearchResult.t,
      ContentGenerationAgent._generate_section_content section other
      = ContentGenerationAgent._generate_section_content section research.
Proof.
  assert (Hlines :
    ContentGenerationAgent._generate_section_content section research
    = Py.join Py.nl
        (("# " +:+ Section_.title section +:+ Py.nl)
         :: flat_map
              (λ point, [ "## " +:+ point +:+ Py.nl;
                          "Content about " +:+ Py.lower point +:+ "..." +:+ Py.nl ])
              (default [] (Section_.key_points section))
         ++ flat_map
              (λ sub, [ "## " +:+ Subsection.title sub +:+ Py.nl;
                        "Content about " +:+ Py.lower (Subsection.title sub)
                        +:+ "..." +:+ Py.nl ])
              (default [] (Section_.subsections section)))).
  { unfold ContentGenerationAgent._generate_section_content.
    f_equal.
    destruct (Section_.key_points section) as [[|p ps]|];
      destruct (Section_.subsections section) as [[|s ss]|];
      cbn [Py.truthy_list default];
      rewrite ?render_loop; cbn [flat_map app];
      rewrite <- ?app_assoc, ?app_nil_r; reflexivity. }
  split; [exact Hlines|]. split; [|reflexivity].
  intros Hpoints Hsubs. rewrite Hlines.
  destruct (Section_.key_points section) as [[|p ps]|]; try discriminate;
    destruct (Section_.subsections section) as [[|s ss]|]; try discriminate;
    reflexivity.
Qed.

(** X19.  The Optimization stage counts the words of the content itself:
    whatever [word_count] the draft carries, the optimized post's is the
    token count of the content.  For a draft that the Generation stage
    produced the two counts agree. *)
Theorem optimization_recounts_words (draft : BlogPost.t) (w : World) :
  ∃ (post : SEOOptimizedPost.t) (w' : World),
    SEOOptimizationAgent.execute draft w = (Returned post, w')
    ∧ SEOOptimizedPost.word_count post
      = Z.of_nat (Spec.whitespace_token_count (BlogPost.content draft))
    ∧ ∀ (outline : BlogOutline.t) (research : ResearchResult.t) (w0 : World),
        fst (ContentGenerationAgent.execute outline research w0) = Returned draft →
        SEOOptimizedPost.word_count post = BlogPost.word_count draft.
Proof.
  eexists. eexists. split; [stage; reflexivity|].
  cbn [SEOOptimizedPost.word_count].
  unfold SEOOptimizationAgent._optimize_content.
  split; [by rewrite split_length|].
  intros outline research w0 [= <-]. reflexivity.
Qed.

(** A stale count is replaced. *)
Example optimization_recounts_stale_draft (w : World) :
  outcome_map SEOOptimizedPost.word_count
    (fst (SEOOptimizationAgent.execute
            (BlogPost.mk "T" "M" "three short words" 99 [] []) w))
  = Returned 3.
Proof. reflexivity. Qed.

(** ** Metadata across the stages *)





(** ** Research is never empty *)


(** On the sample clock, one millisecond per reading, a run takes nine
    milliseconds: the readings of the eight log lines lie between the two
    that are compared. *)
Example generation_time_sample :
  outcome_map BlogGenerationResult.generation_time
    (fst (BlogGenerationOrchestrator.generate_blog_post ResearchAgent.placeholder
            (Some "Hiring") Sample.fresh_world))
  = Returned (9000 # 1000000)%Q.
Proof. reflexivity. Qed.
